(** * Serverless image processing: a shallow embedding of the image handler

    The development follows the TypeScript sources of the image handler:
    [ImageHandler] (process, applyEdits, applyFormatting, convertHexToRgb,
    generateImageId), [S3Operations] and [DbOperations], and the Lambda entry
    point (handler, handleS3Event, handleRequest and the response builders).

    Conventions.
    - JavaScript strings are strings of 8-bit code units; [charCodeAt] is the
      code of the character.
    - Dynamically typed values (the edit bag, option blocks) are [JsValue]s;
      an object is an insertion-ordered list of properties.
    - A Buffer is a list of bytes.
    - The image engine (Sharp) and the runtime built-ins whose exact output is
      irrelevant here (JSON.stringify, template interpolation) are the fields
      of the class [Runtime].
    - [process.env], object storage and the document stores are finite
      tables of bindings, looked up by key with the newest binding first.
    - Object storage, the document store and the outcome of every external
      call are part of an explicit [World]; an exception is a value of type
      [JsError] returned on the [Throw] side of a [Completion]. *)

From Stdlib Require Import ZArith QArith Strings.String Strings.Ascii List Lia.
From Stdlib Require Import HexadecimalString DecimalString.
From stdpp Require Import base option list strings.

Set Warnings "-register-all".

Open Scope Z_scope.
Open Scope string_scope.

(* ===================================================================== *)
(** * Part I: definitions                                                  *)
(* ===================================================================== *)

(** ** JavaScript values *)

Module Js.

Inductive JsValue : Type :=
| JUndefined
| JNull
| JBool (b : bool)
| JNum (q : Q)
| JNaN
| JStr (s : string)
| JObj (props : list (string * JsValue)).

Definition JsObject : Type := list (string * JsValue).

(** [obj.k]: the value of the first property named [k], else undefined. *)
Fixpoint getProp (k : string) (props : JsObject) : JsValue :=
  match props with
  | [] => JUndefined
  | (k', v) :: rest => if String.eqb k k' then v else getProp k rest
  end.

(** ToBoolean. *)
Definition truthy (v : JsValue) : bool :=
  match v with
  | JUndefined | JNull | JNaN => false
  | JBool b => b
  | JNum q => negb (Qeq_bool q 0)
  | JStr s => negb (String.eqb s "")
  | JObj _ => true
  end.

(** [v.k] for a value [v] that is already known to be truthy: a primitive
    has none of the option names used by the handler. *)
Definition member (v : JsValue) (k : string) : JsValue :=
  match v with
  | JObj props => getProp k props
  | _ => JUndefined
  end.

(** [a ?? b] *)
Definition nullish (a b : JsValue) : JsValue :=
  match a with
  | JUndefined | JNull => b
  | _ => a
  end.

(** A destructuring default [{ k = d } = v]: used only when [v.k] is
    undefined. *)
Definition withDefault (a d : JsValue) : JsValue :=
  match a with
  | JUndefined => d
  | _ => a
  end.

(** [v !== 0] *)
Definition notStrictZero (v : JsValue) : bool :=
  match v with
  | JNum q => negb (Qeq_bool q 0)
  | _ => true
  end.

Fixpoint chars (s : string) : list JsValue :=
  match s with
  | EmptyString => []
  | String c r => JStr (String c EmptyString) :: chars r
  end.

(** [Object.values(v)] for a truthy [v]. *)
Definition objectValues (v : JsValue) : list JsValue :=
  match v with
  | JObj props => map snd props
  | JStr s => chars s
  | _ => []
  end.

(** The double-quote character, for building JSON and SVG text. *)
Definition dq : string := String (ascii_of_nat 34) EmptyString.

End Js.
Export Js.

(** ** String helpers mirroring the String.prototype methods in use *)

Module Str.

(** [s.split(sep)] for a one-character separator: never empty. *)
Fixpoint split (sep : ascii) (s : string) : list string :=
  match s with
  | EmptyString => [EmptyString]
  | String c r =>
      if Ascii.eqb c sep then EmptyString :: split sep r
      else match split sep r with
           | [] => [String c EmptyString]
           | h :: t => String c h :: t
           end
  end.

(** [s.includes(needle)] *)
Fixpoint includes (needle s : string) : bool :=
  String.prefix needle s ||
  match s with
  | EmptyString => false
  | String _ r => includes needle r
  end.

Definition startsWith (p s : string) : bool := String.prefix p s.

Definition lowerChar (c : ascii) : ascii :=
  let n := nat_of_ascii c in
  if (65 <=? n)%nat && (n <=? 90)%nat then ascii_of_nat (n + 32) else c.

(** [s.toLowerCase()] on 8-bit code units below 128. *)
Fixpoint toLowerCase (s : string) : string :=
  match s with
  | EmptyString => EmptyString
  | String c r => String (lowerChar c) (toLowerCase r)
  end.

(** [a || b] on strings: the empty string is falsy. *)
Definition orElse (a b : string) : string :=
  if String.eqb a "" then b else a.

(** [n.toString(16)] for a non-negative integer. *)
Definition toHex (n : Z) : string :=
  HexadecimalString.NilZero.string_of_uint (N.to_hex_uint (Z.to_N n)).

(** Decimal rendering of an integer. *)
Definition ofZ (n : Z) : string :=
  DecimalString.NilZero.string_of_int (Z.to_int n).

Definition charCode (c : ascii) : Z := Z.of_nat (nat_of_ascii c).

End Str.

(** ** Hex colours: ImageHandler.convertHexToRgb *)

Record Color : Type := mkColor {
  r : Z;
  g : Z;
  b : Z;
  alpha : option Z
}.

Definition rgb (r g b : Z) : Color := mkColor r g b None.

(** The literal [{ r: 0, g: 0, b: 0, alpha: 0 }]. *)
Definition transparentBlack : Color := mkColor 0 0 0 (Some 0).

(** The character class [[a-f\d]] under the [i] flag. *)
Definition isHexDigit (c : ascii) : bool :=
  let n := nat_of_ascii c in
  ((48 <=? n) && (n <=? 57) || (65 <=? n) && (n <=? 70)
   || (97 <=? n) && (n <=? 102))%nat.

Definition hexDigitValue (c : ascii) : Z :=
  let n := Z.of_nat (nat_of_ascii c) in
  (if (48 <=? n) && (n <=? 57) then n - 48
   else if (65 <=? n) && (n <=? 70) then n - 55
   else n - 87)%Z.

(** [parseInt(s, 16)] on a capture group, which holds hex digits only. *)
Definition parseInt16 (s : string) : Z :=
  fold_left (fun acc c => (16 * acc + hexDigitValue c)%Z) (list_ascii_of_string s) 0%Z.

(** The optional leading [#] of both patterns ([^#?]). When the rest fails
    to match, backtracking to the empty alternative makes the first group
    face [#], which is no hex digit, so consuming the [#] is the only way to
    match. *)
Definition stripHash (s : string) : string :=
  match s with
  | String c rest => if Ascii.eqb c "#" then rest else s
  | EmptyString => s
  end.

(** [/^#?([a-f\d])([a-f\d])([a-f\d])$/i] *)
Definition matchShorthand (s : string) : option (ascii * ascii * ascii) :=
  match stripHash s with
  | String c1 (String c2 (String c3 EmptyString)) =>
      if isHexDigit c1 && isHexDigit c2 && isHexDigit c3
      then Some (c1, c2, c3) else None
  | _ => None
  end.

(** [hex.replace(shorthandRegex, (_, r, g, b) => r + r + g + g + b + b)]:
    the pattern is anchored at both ends, so a match replaces everything. *)
Definition expandShorthand (hex : string) : string :=
  match matchShorthand hex with
  | Some (c1, c2, c3) =>
      String c1 (String c1 (String c2 (String c2 (String c3 (String c3 EmptyString)))))
  | None => hex
  end.

(** [/^#?([a-f\d]{2})([a-f\d]{2})([a-f\d]{2})$/i.exec(hexValue)] *)
Definition matchFull (s : string) : option (string * string * string) :=
  match stripHash s with
  | String c1 (String c2 (String c3 (String c4 (String c5 (String c6 EmptyString))))) =>
      if isHexDigit c1 && isHexDigit c2 && isHexDigit c3
         && isHexDigit c4 && isHexDigit c5 && isHexDigit c6
      then Some (String c1 (String c2 EmptyString),
                 String c3 (String c4 EmptyString),
                 String c5 (String c6 EmptyString))
      else None
  | _ => None
  end.

Definition convertHexToRgb (hex : string) : Color :=
  let hexValue := expandShorthand hex in
  match matchFull hexValue with
  | Some (g1, g2, g3) => rgb (parseInt16 g1) (parseInt16 g2) (parseInt16 g3)
  | None => rgb 0 0 0
  end.

(** ** Buffers, enums and errors *)

Definition Buffer : Type := list Byte.byte.

(** [Buffer.from(str)] *)
Definition bufferFrom (s : string) : Buffer := list_byte_of_string s.

(** Modelled from the spec: the enum [ImageFormatTypes] of lib/enums.ts, which
    is not among the sources. The spec gives the supported formats as
    jpeg, png, webp, tiff, gif and avif. *)
Inductive ImageFormatTypes : Type := JPEG | PNG | WEBP | TIFF | GIF | AVIF.

Definition formatName (f : ImageFormatTypes) : string :=
  match f with
  | JPEG => "jpeg" | PNG => "png" | WEBP => "webp"
  | TIFF => "tiff" | GIF => "gif" | AVIF => "avif"
  end.

Definition allFormats : list ImageFormatTypes := [JPEG; PNG; WEBP; TIFF; GIF; AVIF].

(** [Object.values(ImageFormatTypes)] *)
Definition formats : list string := map formatName allFormats.

(** [formats.includes(x)] for an [x] that is a string or undefined. *)
Definition formatsInclude (x : option string) : bool :=
  match x with
  | Some s => existsb (String.eqb s) formats
  | None => false
  end.

(** The enum member whose value is [s], for [switch] and table lookups. *)
Definition formatOfName (s : string) : option ImageFormatTypes :=
  find (fun f => String.eqb s (formatName f)) allFormats.

(** Modelled from the spec: the enum [StatusCodes] of lib/enums.ts, which is
    not among the sources. The spec names 200, 400, a 413-class "too large"
    status, 500 and a 504-class timeout. *)
Inductive StatusCodes : Type :=
| OK | BAD_REQUEST | REQUEST_TOO_LONG | INTERNAL_SERVER_ERROR | TIMEOUT.

Definition statusValue (s : StatusCodes) : Z :=
  match s with
  | OK => 200
  | BAD_REQUEST => 400
  | REQUEST_TOO_LONG => 413
  | INTERNAL_SERVER_ERROR => 500
  | TIMEOUT => 504
  end.

(** A thrown value. [ImageHandlerError] sets [status] and [code]; errors of
    the SDK and of the runtime carry a [name] and a [message] only. *)
Record JsError : Type := mkError {
  name : string;
  status : option StatusCodes;
  code : option string;
  message : string
}.

(** [new ImageHandlerError(status, code, message)] *)
Definition ImageHandlerError (s : StatusCodes) (c m : string) : JsError :=
  mkError "Error" (Some s) (Some c) m.

(** [new Error(message)] *)
Definition plainError (m : string) : JsError := mkError "Error" None None m.

Definition TypeError (m : string) : JsError := mkError "TypeError" None None m.

(** The outcome of running a block: a value, or a thrown error. *)
Inductive Completion (A : Type) : Type :=
| Normal (a : A)
| Throw (e : JsError).
Arguments Normal {A} a.
Arguments Throw {A} e.

(** ** The request record (lib/types.ts, lib/interfaces.ts) *)

Record ImageRequestInfo : Type := mkRequest {
  requestType : string;
  bucket : string;
  key : string;
  edits : option JsObject;
  originalImage : Buffer;
  headers : option JsObject;
  contentType : option string;
  (** An own property named [ContentType], when the object carries one:
      [Some v] makes ["ContentType" in imageRequestInfo] true. *)
  ContentType : option (option string);
  outputFormat : option string;
  cacheControl : option string;
  expires : option string;
  lastModified : option string;
  effort : option Z;
  secondsToExpiry : option Z
}.

(** ** The image engine and the runtime built-ins *)

Inductive SharpOp : Type :=
| OpResizeOptions (width height fit position : JsValue) (background : Color)
| OpResize (width height : JsValue) (options : option (JsValue * JsValue))
| OpGrayscale
| OpFlip
| OpFlop
| OpRotate (angle : JsValue) (background : Color)
| OpFlatten (background : Color)
| OpModulate (options : JsValue)
| OpNormalize
| OpThreshold (arg : JsValue)
| OpSharpen (arg : JsValue)
| OpBlur (arg : JsValue)
| OpExtend (top bottom left right : JsValue) (background : Color)
| OpComposite (input : Buffer) (gravity : string)
| OpFormat (format : ImageFormatTypes) (options : option JsValue).

(** A Sharp instance: the input, the constructor's [failOn] option and the
    operations queued so far. *)
Record Sharp : Type := mkSharp {
  input : Buffer;
  failOn : option string;
  ops : list SharpOp
}.

Record SharpMetadata : Type := mkMetadata {
  format : option string;
  width : option Z;
  height : option Z
}.

Class Runtime : Type := {
  (** [await image.toBuffer()]: runs the queued operations. A rejected
      argument of an operation surfaces here as well. *)
  sharp_toBuffer : Sharp -> Completion Buffer;
  (** [await image.metadata()] *)
  sharp_metadata : Sharp -> Completion SharpMetadata;
  (** [JSON.stringify(value)] *)
  JSON_stringify : JsValue -> string;
  (** Interpolation of a value inside a template literal. *)
  toStr : JsValue -> string;
  (** ToNumber on a string. *)
  stringToNumber : string -> JsValue;
  (** [encodeURI(value)] *)
  encodeURI : JsValue -> string;
  (** [decodeURIComponent(s)]; [None] is a URIError. *)
  decodeURIComponent : string -> option string;
  (** [new Date(ms).toISOString()] *)
  toISOString : Z -> string;
  (** [isNullOrWhiteSpace] of solution-utils/helpers. *)
  isNullOrWhiteSpace : option string -> bool
}.

(** [Sharp(buffer, { failOn: "none" })] and [Sharp(buffer)] *)
Definition SharpLenient (buf : Buffer) : Sharp := mkSharp buf (Some "none") [].
Definition SharpDefault (buf : Buffer) : Sharp := mkSharp buf None [].

(** [image.op(...)]: queue one more operation. *)
Definition queue (image : Sharp) (op : SharpOp) : Sharp :=
  mkSharp (input image) (failOn image) (ops image ++ [op]).

(** ** The fingerprint: ImageHandler.generateImageId *)

(** ToInt32: wrap into the signed 32-bit range. *)
Definition toInt32 (z : Z) : Z := (z + 2 ^ 31) mod 2 ^ 32 - 2 ^ 31.

(** One turn of the loop body:
    [hash = ((hash << 5) - hash) + char; hash = hash & hash]. *)
Definition hashStep (hash : Z) (c : ascii) : Z :=
  let char := Str.charCode c in
  let hash1 := toInt32 (Z.shiftl (toInt32 hash) 5) - hash + char in
  Z.land (toInt32 hash1) (toInt32 hash1).

Definition rollingHash (requestString : string) : Z :=
  fold_left hashStep (list_ascii_of_string requestString) 0.

(** [key.split('/').pop()?.split('.')[0] || 'image'] *)
Definition baseName (key : string) : string :=
  Str.orElse (hd "" (Str.split "." (List.last (Str.split "/" key) ""))) "image".

Section Fingerprint.
Context `{Runtime}.

(** [edits ? JSON.stringify(edits) : ''] *)
Definition editString (edits : option JsObject) : string :=
  match edits with
  | Some e => JSON_stringify (JObj e)
  | None => ""
  end.

Definition requestString (info : ImageRequestInfo) : string :=
  bucket info ++ "/" ++ key info ++ "/" ++ editString (edits info) ++ "/"
    ++ Str.orElse (default "" (outputFormat info)) "".

Definition generateImageId (info : ImageRequestInfo) : string :=
  let hash := rollingHash (requestString info) in
  let hashHex := Str.toHex (Z.abs hash) in
  let ext := Str.orElse (default "" (Str.toLowerCase <$> outputFormat info)) "jpg" in
  baseName (key info) ++ "-" ++ hashHex ++ "." ++ ext.

End Fingerprint.

(** ** The edit pipeline: ImageHandler.applyEdits and applyFormatting *)

Definition cbind {A B} (c : Completion A) (f : A -> Completion B) : Completion B :=
  match c with
  | Normal a => f a
  | Throw e => Throw e
  end.

#[global] Instance Completion_ret : MRet Completion := fun A a => Normal a.
#[global] Instance Completion_bind : MBind Completion := fun A B f c => cbind c f.

(** [try { body } catch (error) { throw replacement }] *)
Definition rethrowAs {A} (replacement : JsError) (body : Completion A) : Completion A :=
  match body with
  | Normal a => Normal a
  | Throw _ => Throw replacement
  end.

(** [v !== "s"] *)
Definition notStrictString (v : JsValue) (s : string) : bool :=
  match v with
  | JStr s' => negb (String.eqb s' s)
  | _ => true
  end.

(** [this.convertHexToRgb(v)] on a dynamically typed, truthy argument: only
    a string has a [replace] method. *)
Definition hexArg (v : JsValue) : Completion Color :=
  match v with
  | JStr s => Normal (convertHexToRgb s)
  | _ => Throw (TypeError "hex.replace is not a function")
  end.

(** [v ? this.convertHexToRgb(v) : fallback] *)
Definition hexOr (v : JsValue) (fallback : Color) : Completion Color :=
  if truthy v then hexArg v else Normal fallback.

Fixpoint indexed (i : Z) (l : list JsValue) : JsObject :=
  match l with
  | [] => []
  | v :: rest => (Str.ofZ i, v) :: indexed (i + 1) rest
  end.

(** [{ ...v }] for a truthy [v]. *)
Definition spread (v : JsValue) : JsValue :=
  match v with
  | JObj props => JObj props
  | JStr s => JObj (indexed 0 (chars s))
  | _ => JObj []
  end.

(** The pipeline under construction: the current Sharp instance, and the
    record of every operation queued during this call. *)
Record Pipeline : Type := mkPipeline {
  image : Sharp;
  applied : list SharpOp
}.

Definition enqueue (p : Pipeline) (op : SharpOp) : Pipeline :=
  mkPipeline (queue (image p) op) (applied p ++ [op]).

(** getTextAnchor, getTextBaseline, getTextPosition *)
Definition getTextAnchor (position : string) : string :=
  if Str.includes "left" position then "start"
  else if Str.includes "right" position then "end"
  else "middle".

Definition getTextBaseline (position : string) : string :=
  if Str.includes "top" position then "hanging"
  else if Str.includes "bottom" position then "baseline"
  else "middle".

Inductive Axis : Type := AxisX | AxisY.

(** A dimension reported by the engine, as a dynamically typed argument. *)
Definition dimension (d : option Z) : JsValue :=
  match d with
  | Some n => JNum (inject_Z n)
  | None => JUndefined
  end.

Section Pipeline.
Context `{Runtime}.

(** [Number(v)] *)
Definition Number (v : JsValue) : JsValue :=
  match v with
  | JUndefined | JNaN | JObj _ => JNaN
  | JNull => JNum 0
  | JBool b => JNum (if b then 1 else 0)
  | JNum q => JNum q
  | JStr s => stringToNumber s
  end.

(** [100 - padding] *)
Definition hundredMinus (padding : JsValue) : JsValue :=
  match Number padding with
  | JNum q => JNum (100 - q)
  | _ => JNaN
  end.

Definition getTextPosition (position : string) (axis : Axis) (padding : JsValue) : JsValue :=
  match axis with
  | AxisX =>
      if Str.includes "left" position then padding
      else if Str.includes "right" position then hundredMinus padding
      else JNum 50
  | AxisY =>
      if Str.includes "top" position then padding
      else if Str.includes "bottom" position then hundredMinus padding
      else JNum 50
  end.

Definition nl : string := String (ascii_of_nat 10) EmptyString.

(** The SVG text layer of the watermark. *)
Definition svgText (text color opacity fontSize padding : JsValue) (position : string) : string :=
  nl ++ "          <svg width=" ++ dq ++ "100%" ++ dq ++ " height=" ++ dq ++ "100%" ++ dq ++ ">"
  ++ nl ++ "            <style>"
  ++ nl ++ "              .text {"
  ++ nl ++ "                fill: " ++ toStr color ++ ";"
  ++ nl ++ "                opacity: " ++ toStr opacity ++ ";"
  ++ nl ++ "                font-size: " ++ toStr fontSize ++ "px;"
  ++ nl ++ "                font-family: Arial, sans-serif;"
  ++ nl ++ "                font-weight: bold;"
  ++ nl ++ "              }"
  ++ nl ++ "            </style>"
  ++ nl ++ "            <text x=" ++ dq ++ toStr (getTextPosition position AxisX padding) ++ "%" ++ dq ++ " "
  ++ nl ++ "                  y=" ++ dq ++ toStr (getTextPosition position AxisY padding) ++ "%" ++ dq ++ " "
  ++ nl ++ "                  text-anchor=" ++ dq ++ getTextAnchor position ++ dq
  ++ nl ++ "                  dominant-baseline=" ++ dq ++ getTextBaseline position ++ dq
  ++ nl ++ "                  class=" ++ dq ++ "text" ++ dq ++ ">" ++ toStr text ++ "</text>"
  ++ nl ++ "          </svg>".

Definition Step : Type := JsObject -> Pipeline -> Completion Pipeline.

Definition stepResize : Step := fun edits p =>
  let resize := getProp "resize" edits in
  if truthy resize then
    let fit := member resize "fit" in
    if truthy fit && notStrictString fit "cover" then
      background ← hexOr (member resize "background") transparentBlack;
      Normal (enqueue p (OpResizeOptions (member resize "width") (member resize "height")
                           fit (nullish (member resize "position") (JStr "center"))
                           background))
    else
      Normal (enqueue p (OpResize (member resize "width") (member resize "height")
                           (Some (nullish fit (JStr "cover"),
                                  nullish (member resize "position") (JStr "center")))))
  else Normal p.

Definition stepGrayscale : Step := fun edits p =>
  if truthy (getProp "grayscale" edits) then Normal (enqueue p OpGrayscale) else Normal p.

Definition stepFlip : Step := fun edits p =>
  if truthy (getProp "flip" edits) then Normal (enqueue p OpFlip) else Normal p.

Definition stepFlop : Step := fun edits p =>
  if truthy (getProp "flop" edits) then Normal (enqueue p OpFlop) else Normal p.

Definition stepRotate : Step := fun edits p =>
  match getProp "rotate" edits with
  | JUndefined => Normal p
  | rotate =>
      background ← hexOr (getProp "background" edits) transparentBlack;
      Normal (enqueue p (OpRotate (Number rotate) background))
  end.

Definition stepBackground : Step := fun edits p =>
  if truthy (getProp "background" edits) then
    background ← hexArg (getProp "background" edits);
    Normal (enqueue p (OpFlatten background))
  else Normal p.

Definition stepFlatten : Step := fun edits p =>
  let flatten := getProp "flatten" edits in
  if truthy flatten then
    background ← hexOr (member flatten "background") (rgb 0 0 0);
    Normal (enqueue p (OpFlatten background))
  else Normal p.

Definition stepRgb : Step := fun edits p =>
  let rgbEdit := getProp "rgb" edits in
  if truthy rgbEdit && existsb notStrictZero (objectValues rgbEdit)
  then Normal (enqueue p (OpModulate (spread rgbEdit)))
  else Normal p.

Definition stepNormalize : Step := fun edits p =>
  if truthy (getProp "normalize" edits) then Normal (enqueue p OpNormalize) else Normal p.

Definition stepThreshold : Step := fun edits p =>
  let v := getProp "threshold" edits in
  if truthy v then Normal (enqueue p (OpThreshold v)) else Normal p.

Definition stepSharpen : Step := fun edits p =>
  let v := getProp "sharpen" edits in
  if truthy v then Normal (enqueue p (OpSharpen v)) else Normal p.

Definition stepBlur : Step := fun edits p =>
  let v := getProp "blur" edits in
  if truthy v then Normal (enqueue p (OpBlur v)) else Normal p.

Definition stepExtend : Step := fun edits p =>
  let extend := getProp "extend" edits in
  if truthy extend then
    let top := withDefault (member extend "top") (JNum 0) in
    let right := withDefault (member extend "right") (JNum 0) in
    let bottom := withDefault (member extend "bottom") (JNum 0) in
    let left := withDefault (member extend "left") (JNum 0) in
    background ← hexOr (member extend "background") transparentBlack;
    Normal (enqueue p (OpExtend top bottom left right background))
  else Normal p.

Definition stepWatermark : Step := fun edits p =>
  let watermark := getProp "watermark" edits in
  if truthy watermark then
    let text := member watermark "text" in
    let position := withDefault (member watermark "position") (JStr "center") in
    let color := withDefault (member watermark "color") (JStr "#ffffff") in
    let opacity := withDefault (member watermark "opacity") (JNum (1 # 2)) in
    let fontSize := withDefault (member watermark "fontSize") (JNum 48) in
    let padding := withDefault (member watermark "padding") (JNum 20) in
    match position with
    | JStr pos =>
        let svg := bufferFrom (svgText text color opacity fontSize padding pos) in
        metadata ← sharp_metadata (image p);
        watermarkImage ←
          sharp_toBuffer (queue (SharpDefault svg)
                            (OpResize (dimension (width metadata))
                                      (dimension (height metadata))
                                      None));
        rendered ← sharp_toBuffer (image p);
        let op := OpComposite watermarkImage "center" in
        Normal (mkPipeline (queue (SharpDefault rendered) op) (applied p ++ [op]))
    | _ => Throw (TypeError "position.includes is not a function")
    end
  else Normal p.

(** The format-specific options: the first truthy key wins. *)
Definition stepFormat : Step := fun edits p =>
  if truthy (getProp "jpeg" edits) then
    Normal (enqueue p (OpFormat JPEG (Some (getProp "jpeg" edits))))
  else if truthy (getProp "png" edits) then
    Normal (enqueue p (OpFormat PNG (Some (getProp "png" edits))))
  else if truthy (getProp "webp" edits) then
    Normal (enqueue p (OpFormat WEBP (Some (getProp "webp" edits))))
  else if truthy (getProp "tiff" edits) then
    Normal (enqueue p (OpFormat TIFF (Some (getProp "tiff" edits))))
  else if truthy (getProp "gif" edits) then
    Normal (enqueue p (OpFormat GIF (Some (getProp "gif" edits))))
  else if truthy (getProp "avif" edits) then
    Normal (enqueue p (OpFormat AVIF (Some (getProp "avif" edits))))
  else Normal p.

(** The statements of the [try] block of applyEdits, in source order. *)
Definition editSteps : list Step :=
  [ stepResize; stepGrayscale; stepFlip; stepFlop; stepRotate;
    stepBackground; stepFlatten; stepRgb; stepNormalize; stepThreshold;
    stepSharpen; stepBlur; stepExtend; stepWatermark; stepFormat ].

Fixpoint runSteps (steps : list Step) (edits : JsObject) (p : Pipeline) : Completion Pipeline :=
  match steps with
  | [] => Normal p
  | s :: rest => p' ← s edits p; runSteps rest edits p'
  end.

(** The pipeline as it stands before the final [image.toBuffer()]. *)
Definition buildPipeline (originalImage : Buffer) (edits : JsObject) : Completion Pipeline :=
  runSteps editSteps edits (mkPipeline (SharpLenient originalImage) []).

Definition ImageEditsError : JsError :=
  ImageHandlerError INTERNAL_SERVER_ERROR "ImageEditsError"
    "Error occurred while applying edits to the image.".

Definition applyEdits (originalImage : Buffer) (edits : JsObject) : Completion Buffer :=
  rethrowAs ImageEditsError
    (p ← buildPipeline originalImage edits;
     sharp_toBuffer (image p)).

Definition ImageFormatErrorInner : JsError :=
  ImageHandlerError INTERNAL_SERVER_ERROR "ImageFormatError"
    "Error occurred while converting the image.".

(** The [contentType] argument is not used by the body. The [default]
    branch of the [switch] is taken by a value outside the enum. *)
Definition applyFormatting (img : Buffer) (contentType : option string)
    (outputFormat : string) : Completion Buffer :=
  rethrowAs ImageFormatErrorInner
    (let sharpImage := SharpLenient img in
     match formatOfName outputFormat with
     | Some f => sharp_toBuffer (queue sharpImage (OpFormat f None))
     | None => sharp_toBuffer sharpImage
     end).

End Pipeline.

(** ** Tables: [process.env] and the external stores

    A table is a finite list of bindings; a lookup finds the newest binding
    of the key, an insertion puts a new binding in front. *)

Class Key (K : Type) : Type := sameKey : K -> K -> bool.

#[global] Instance string_key : Key string := String.eqb.

#[global] Instance pair_key {A B} `{Key A} `{Key B} : Key (A * B) :=
  fun a b => sameKey (fst a) (fst b) && sameKey (snd a) (snd b).

Record Table (K V : Type) : Type := mkTable { bindings : list (K * V) }.
Arguments mkTable {K V} bindings.
Arguments bindings {K V} t.

Fixpoint assoc {K V} `{Key K} (k : K) (l : list (K * V)) : option V :=
  match l with
  | [] => None
  | (k', v) :: rest => if sameKey k k' then Some v else assoc k rest
  end.

#[global] Instance table_lookup {K V} `{Key K} : Lookup K V (Table K V) :=
  fun k t => assoc k (bindings t).

#[global] Instance table_insert {K V} : Insert K V (Table K V) :=
  fun k v t => mkTable ((k, v) :: bindings t).

#[global] Instance table_empty {K V} : Empty (Table K V) := mkTable [].

#[global] Instance table_singleton {K V} : SingletonM K V (Table K V) :=
  fun k v => mkTable [(k, v)].

(** [process.env] *)
Abbreviation Env := (Table string string).

(** A store addressed by two strings: bucket and key, or table and id. *)
Abbreviation Store V := (Table (string * string) V).

(** ** The world: object storage, the document store, external outcomes *)

Module S3.

(** A stored object, with the attributes the handler reads or writes. *)
Record Object : Type := mkObject {
  Body : Buffer;
  ContentType : option string;
  CacheControl : option string;
  LastModified : option string;
  ContentDisposition : option string;
  Metadata : list (string * string)
}.

End S3.

Module Db.

(** lib/interfaces.ts, [ImageMetadata], as a partial record: [None] is an
    absent attribute. The attributes [edits], [originalEtag] and
    [customMetadata] are never written by the code below and are left
    out. *)
Record ImageMetadata : Type := mkImageMetadata {
  imageId : option string;
  bucketName : option string;
  key : option string;
  format : option string;
  width : option Z;
  height : option Z;
  size : option Z;
  contentType : option string;
  createdAt : option string;
  updatedAt : option string;
  processingStatus : option string;
  processingError : option string;
  requestedEdits : option JsObject;
  accessCount : option Z;
  lastAccessed : option string
}.

Definition empty : ImageMetadata :=
  mkImageMetadata None None None None None None None None None None None None None None None.

(** [{ ...base, ...over }]: the later spread wins where it has the
    attribute. *)
Definition spread (base over : ImageMetadata) : ImageMetadata :=
  mkImageMetadata
    (imageId over ∪ imageId base) (bucketName over ∪ bucketName base)
    (key over ∪ key base) (format over ∪ format base)
    (width over ∪ width base) (height over ∪ height base)
    (size over ∪ size base) (contentType over ∪ contentType base)
    (createdAt over ∪ createdAt base) (updatedAt over ∪ updatedAt base)
    (processingStatus over ∪ processingStatus base)
    (processingError over ∪ processingError base)
    (requestedEdits over ∪ requestedEdits base)
    (accessCount over ∪ accessCount base)
    (lastAccessed over ∪ lastAccessed base).

Definition optStr (k : string) (v : option string) : JsObject :=
  match v with Some s => [(k, JStr s)] | None => [] end.

Definition optNum (k : string) (v : option Z) : JsObject :=
  match v with Some n => [(k, JNum (inject_Z n))] | None => [] end.

(** The record as a plain object, for JSON.stringify. *)
Definition toJs (m : ImageMetadata) : JsValue :=
  JObj (optStr "imageId" (imageId m) ++ optStr "bucketName" (bucketName m)
        ++ optStr "key" (key m) ++ optStr "format" (format m)
        ++ optNum "width" (width m) ++ optNum "height" (height m)
        ++ optNum "size" (size m) ++ optStr "contentType" (contentType m)
        ++ optStr "createdAt" (createdAt m) ++ optStr "updatedAt" (updatedAt m)
        ++ optStr "processingStatus" (processingStatus m)
        ++ optStr "processingError" (processingError m)
        ++ match requestedEdits m with Some e => [("requestedEdits", JObj e)] | None => [] end
        ++ optNum "accessCount" (accessCount m)
        ++ optStr "lastAccessed" (lastAccessed m))%list.

End Db.

(** One entry of [processingResults] in the batch controller. *)
Record ProcessingResult : Type := mkResult {
  transformType : string;
  resultOutputKey : option string;
  resultOutputFormat : option string;
  outputUrl : option string;
  resultWidth : option Z;
  resultHeight : option Z;
  resultStatus : string;
  errorMessage : option string
}.

(** The documents the batch controller writes through its own document
    client: the batch-level record or the minimal error record. The
    [errorStack] text of the error record is left out. *)
Inductive BatchDocument : Type :=
| BatchCompleted (id originalFileName originalBucket originalKey originalFormat
                  originalContentType processedBucket : string)
                 (processingResults : list ProcessingResult)
                 (processingTimeMs : Z) (createdAt : string) (docStatus : string)
| BatchError (id originalBucket originalKey errorMessage : string)
             (createdAt : string) (docStatus : string).

(** The body of a response: a Buffer or a string. *)
Inductive ResponseBody : Type :=
| BodyBuffer (b : Buffer)
| BodyString (s : string).

(** [WriteGetObjectResponseRequest] *)
Record WriteParams : Type := mkWriteParams {
  RequestRoute : string;
  RequestToken : string;
  wBody : ResponseBody;
  wMetadata : JsObject;
  wCacheControl : option JsValue
}.

(** The calls that are observable from outside the handler, and the entry
    into the functions whose invocation the properties count. *)
Inductive Call : Type :=
| CallHeadObject (bucket key : string)
| CallGetObject (bucket key : string)
| CallUpload (bucket key : string)
| CallPutObject (bucket key : string)
| CallWriteGetObjectResponse (params : WriteParams)
| CallDbPut (table : string)
| CallDbGet (table imageId : string)
| CallDbUpdate (table imageId : string)
| EnterApplyEdits
| EnterApplyFormatting
| EnterStoreProcessedImage (key : string).

Record World : Type := mkWorld {
  (** object storage, by bucket and key *)
  objects : Store S3.Object;
  (** image metadata items, by table and [imageId] *)
  metadataItems : Store Db.ImageMetadata;
  (** the documents of the batch controller, by table and [id] *)
  batchItems : Store BatchDocument;
  (** what the next external calls will do: [Some e] rejects with [e],
      [None] lets the call through; every call goes through once the list
      is used up *)
  outcomes : list (option JsError);
  (** the calls made so far, oldest first *)
  calls : list Call;
  (** [Date.now()] *)
  now : Z;
  (** the digits [Math.random()] will yield in generateUniqueId *)
  randomDigits : string;
  (** whether the timer of the timeout race fires before processing ends *)
  timerFiresFirst : bool
}.

Definition setObjects (f : Store S3.Object -> Store S3.Object)
    (w : World) : World :=
  mkWorld (f (objects w)) (metadataItems w) (batchItems w) (outcomes w) (calls w)
          (now w) (randomDigits w) (timerFiresFirst w).

Definition setMetadataItems
    (f : Store Db.ImageMetadata -> Store Db.ImageMetadata)
    (w : World) : World :=
  mkWorld (objects w) (f (metadataItems w)) (batchItems w) (outcomes w) (calls w)
          (now w) (randomDigits w) (timerFiresFirst w).

Definition setBatchItems
    (f : Store BatchDocument -> Store BatchDocument)
    (w : World) : World :=
  mkWorld (objects w) (metadataItems w) (f (batchItems w)) (outcomes w) (calls w)
          (now w) (randomDigits w) (timerFiresFirst w).

Definition setOutcomes (o : list (option JsError)) (w : World) : World :=
  mkWorld (objects w) (metadataItems w) (batchItems w) o (calls w)
          (now w) (randomDigits w) (timerFiresFirst w).

Definition record (c : Call) (w : World) : World :=
  mkWorld (objects w) (metadataItems w) (batchItems w) (outcomes w) (calls w ++ [c])
          (now w) (randomDigits w) (timerFiresFirst w).

(** ** Effectful code: state passing with exceptions *)

Definition M (A : Type) : Type := World -> Completion A * World.

Definition ret {A} (a : A) : M A := fun w => (Normal a, w).

Definition throw {A} (e : JsError) : M A := fun w => (Throw e, w).

Definition bind {A B} (m : M A) (f : A -> M B) : M B := fun w =>
  match m w with
  | (Normal a, w') => f a w'
  | (Throw e, w') => (Throw e, w')
  end.

#[global] Instance M_ret : MRet M := fun A a => ret a.
#[global] Instance M_bind : MBind M := fun A B f m => bind m f.

(** [try { body } catch (error) { handler }] *)
Definition tryCatch {A} (body : M A) (handler : JsError -> M A) : M A := fun w =>
  match body w with
  | (Normal a, w') => (Normal a, w')
  | (Throw e, w') => handler e w'
  end.

(** A pure computation that may throw. *)
Definition lift {A} (c : Completion A) : M A := fun w => (c, w).

(** Entry into a counted function. *)
Definition enter (c : Call) : M unit := fun w => (Normal tt, record c w).

(** An external call: it is recorded, then the next outcome decides whether
    it is rejected or performed. *)
Definition external {A} (c : Call) (perform : M A) : M A := fun w =>
  let w1 := record c w in
  match outcomes w1 with
  | Some e :: rest => (Throw e, setOutcomes rest w1)
  | None :: rest => perform (setOutcomes rest w1)
  | [] => perform w1
  end.

Definition NotFound : JsError := mkError "NotFound" None None "Not Found".
Definition NoSuchKey : JsError :=
  mkError "NoSuchKey" None None "The specified key does not exist.".

(** The S3 client. *)
Definition headObject (bucket key : string) : M S3.Object :=
  external (CallHeadObject bucket key) (fun w =>
    match objects w !! (bucket, key) with
    | Some o => (Normal o, w)
    | None => (Throw NotFound, w)
    end).

Definition getObject (bucket key : string) : M S3.Object :=
  external (CallGetObject bucket key) (fun w =>
    match objects w !! (bucket, key) with
    | Some o => (Normal o, w)
    | None => (Throw NoSuchKey, w)
    end).

Definition upload (bucket key : string) (o : S3.Object) : M unit :=
  external (CallUpload bucket key) (fun w =>
    (Normal tt, setObjects (insert (bucket, key) o) w)).

Definition putObject (bucket key : string) (o : S3.Object) : M unit :=
  external (CallPutObject bucket key) (fun w =>
    (Normal tt, setObjects (insert (bucket, key) o) w)).

Definition writeGetObjectResponse (params : WriteParams) : M unit :=
  external (CallWriteGetObjectResponse params) (ret tt).

(** The document client of the batch controller. *)
Definition batchPut (table id : string) (doc : BatchDocument) : M unit :=
  external (CallDbPut table) (fun w =>
    (Normal tt, setBatchItems (insert (table, id) doc) w)).

Definition getNow : M Z := fun w => (Normal (now w), w).

Definition getTimerFiresFirst : M bool := fun w => (Normal (timerFiresFirst w), w).

Section Operations.
Context `{Runtime}.
(** [process.env] *)
Variable env : Env.

(** [process.env[k] || d] *)
Definition envOr (k d : string) : string := Str.orElse (default "" (env !! k)) d.

(** [process.env[k] === v] *)
Definition envIs (k v : string) : bool :=
  match env !! k with
  | Some s => String.eqb s v
  | None => false
  end.

(** lib/env-config.ts *)
Definition getOutputBucket : string := envOr "OUTPUT_BUCKET_NAME" "".
Definition getMetadataTable : string := envOr "METADATA_TABLE_NAME" "".
Definition isCacheEnabled : bool := envIs "ENABLE_CACHE" "Yes".

(** *** DbOperations *)

Definition storeImageMetadata (imageId : string) (metadata : Db.ImageMetadata) : M unit :=
  let tableName := getMetadataTable in
  createdAt ← getNow;
  let item :=
    Db.spread (Db.mkImageMetadata (Some imageId) None None None None None None None
                 (Some (toISOString createdAt)) None None None None None None)
              metadata in
  external (CallDbPut tableName) (fun w =>
    (Normal tt,
     setMetadataItems (insert (tableName, default "" (Db.imageId item)) item) w)).

Definition getImageMetadata (imageId : string) : M (option Db.ImageMetadata) :=
  let tableName := getMetadataTable in
  external (CallDbGet tableName imageId) (fun w =>
    (Normal (metadataItems w !! (tableName, imageId)), w)).

(** The SET expression assigns every attribute of [metadata] except the
    primary key, and [updatedAt]. *)
Definition updateImageMetadata (imageId : string) (metadata : Db.ImageMetadata) : M unit :=
  let tableName := getMetadataTable in
  updatedAt ← getNow;
  let assigned :=
    Db.mkImageMetadata None (Db.bucketName metadata) (Db.key metadata)
      (Db.format metadata) (Db.width metadata) (Db.height metadata)
      (Db.size metadata) (Db.contentType metadata) (Db.createdAt metadata)
      (Some (toISOString updatedAt)) (Db.processingStatus metadata)
      (Db.processingError metadata) (Db.requestedEdits metadata)
      (Db.accessCount metadata) (Db.lastAccessed metadata) in
  external (CallDbUpdate tableName imageId) (fun w =>
    let existing :=
      default (Db.mkImageMetadata (Some imageId) None None None None None None None
                 None None None None None None None)
              (metadataItems w !! (tableName, imageId)) in
    (Normal tt,
     setMetadataItems (insert (tableName, imageId) (Db.spread existing assigned)) w)).

(** *** S3Operations *)

Definition storeProcessedImage (key contentType : string) (buffer : Buffer)
    (metadata : option Db.ImageMetadata) : M unit :=
  _ ← enter (EnterStoreProcessedImage key);
  startTime ← getNow;
  let params :=
    S3.mkObject buffer (Some contentType) (Some "max-age=31536000") None None
      ([("processed", "true");
        ("processing-time", Str.ofZ startTime);
        ("file-size", Str.ofZ (Z.of_nat (length buffer)))]
       ++ match metadata with
          | Some m => [("source-metadata", JSON_stringify (Db.toJs m))]
          | None => []
          end) in
  tryCatch
    (_ ← upload getOutputBucket key params;
     let imageMetadata :=
       Db.spread
         (Db.mkImageMetadata (Some key) (Some getOutputBucket) (Some key)
            (Str.split "/" contentType !! 1%nat) None None
            (Some (Z.of_nat (length buffer))) (Some contentType) None None
            (Some "processed") None None None None)
         (default Db.empty metadata) in
     storeImageMetadata key imageMetadata)
    (fun error =>
       _ ← match metadata with
           | Some m =>
               tryCatch
                 (storeImageMetadata key
                    (Db.spread
                       (Db.mkImageMetadata (Some key) (Some getOutputBucket) (Some key)
                          None None None None None None None
                          (Some "failed") (Some (message error)) None None None)
                       m))
                 (fun dbError => ret tt)
           | None => ret tt
           end;
       throw error).

Definition doesProcessedImageExist (key : string) : M bool :=
  tryCatch
    (_ ← headObject getOutputBucket key; ret true)
    (fun error =>
       if String.eqb (name error) "NotFound" then ret false else throw error).

(** [(existingMetadata.accessCount || 0) + 1] *)
Definition nextAccessCount (existing : Db.ImageMetadata) : Z :=
  match Db.accessCount existing with
  | Some n => (if (n =? 0)%Z then 0 else n) + 1
  | None => 0 + 1
  end.

Definition updateAccessStats (key : string) : M unit :=
  tryCatch
    (existingMetadata ← getImageMetadata key;
     match existingMetadata with
     | Some existing =>
         lastAccessed ← getNow;
         updateImageMetadata key
           (Db.mkImageMetadata None None None None None None None None None None
              None None None (Some (nextAccessCount existing))
              (Some (toISOString lastAccessed)))
     | None => ret tt
     end)
    (fun error => ret tt).

(** *** ImageHandler.process *)

Definition MetadataProbeError : JsError :=
  ImageHandlerError INTERNAL_SERVER_ERROR "ImageProcessingError"
    "Error occurred during image metadata processing.".

Definition ImageFormatNotSupported : JsError :=
  ImageHandlerError BAD_REQUEST "ImageFormatNotSupported"
    "The requested image format is not supported.".

Definition UnableToConvertError : JsError :=
  ImageHandlerError INTERNAL_SERVER_ERROR "ImageProcessingError"
    "Error occurred during image processing. Unable to convert image to desired format.".

Definition ImageFormatError : JsError :=
  ImageHandlerError INTERNAL_SERVER_ERROR "ImageFormatError"
    "Error occurred while converting the image to the desired format.".

Definition CheckParametersError : JsError :=
  ImageHandlerError INTERNAL_SERVER_ERROR "ImageProcessingError"
    "Error occurred during image processing. Please check your request parameters.".

(** [contentTypeMap[outputFormat] || 'image/jpeg'] *)
Definition outputContentTypeOf (outputFormat : string) : string :=
  match formatOfName outputFormat with
  | Some f => "image/" ++ formatName f
  | None => "image/jpeg"
  end.

(** The first [try] of process: [Some body] when the cached artifact is
    returned from inside the block, [None] when control falls through to
    the processing path (no artifact, or an error that was caught). *)
Definition lookupCache (imageId : string) : M (option Buffer) :=
  tryCatch
    (imageExists ← doesProcessedImageExist imageId;
     if (imageExists : bool) then
       _ ← updateAccessStats imageId;
       cachedImage ← getObject (envOr "OUTPUT_BUCKET_NAME" "") imageId;
       ret (Some (S3.Body cachedImage))
     else ret None)
    (fun error => ret None).

(** The block of the second [try]: the content type of the source, from
    the [ContentType] property or from the metadata of the image. *)
Definition probeContentType (info : ImageRequestInfo) : Completion (option string) :=
  match ContentType info with
  | Some declared => Normal declared
  | None =>
      metadata ← sharp_metadata (SharpDefault (originalImage info));
      Normal (format metadata)
  end.

Definition determineContentType (info : ImageRequestInfo) : M (option string) :=
  tryCatch (lift (probeContentType info)) (fun error => throw MetadataProbeError).

(** The block that stores the artifact when [ENABLE_CACHE] is ['Yes']. *)
Definition storeFormatted (info : ImageRequestInfo) (outputFormat : string)
    (formatted : Buffer) : M unit :=
  if isCacheEnabled then
    tryCatch
      (let imageId := generateImageId info in
       let outputContentType := outputContentTypeOf outputFormat in
       metadata ← lift (sharp_metadata (SharpDefault formatted));
       storeProcessedImage imageId outputContentType formatted
         (Some (Db.mkImageMetadata (Some imageId) (Some (envOr "OUTPUT_BUCKET_NAME" ""))
                  (Some imageId) (Some outputFormat) (width metadata) (height metadata)
                  (Some (Z.of_nat (length formatted))) (Some outputContentType)
                  None None (Some "processed") None (edits info) None None)))
      (fun storageError => ret tt)
  else ret tt.

Definition process (info : ImageRequestInfo) : M Buffer :=
  let imageId := generateImageId info in
  cached ← lookupCache imageId;
  match cached with
  | Some body => ret body
  | None =>
      let imageBuffer := originalImage info in
      contentType ← determineContentType info;
      modifiedImage ←
        (if formatsInclude contentType then
           match edits info with
           | Some e =>
               _ ← enter EnterApplyEdits;
               modified ← lift (applyEdits imageBuffer e);
               ret (Some modified)
           | None => ret (Some imageBuffer)
           end
         else throw ImageFormatNotSupported);
      match outputFormat info with
      | Some outputFormat =>
          if negb (String.eqb outputFormat "") && formatsInclude (Some outputFormat) then
            match modifiedImage with
            | None => throw UnableToConvertError
            | Some modified =>
                tryCatch
                  (_ ← enter EnterApplyFormatting;
                   formatted ← lift (applyFormatting modified contentType outputFormat);
                   _ ← storeFormatted info outputFormat formatted;
                   ret formatted)
                  (fun error => throw ImageFormatError)
            end
          else
            match modifiedImage with
            | Some modified => ret modified
            | None => throw CheckParametersError
            end
      | None =>
          match modifiedImage with
          | Some modified => ret modified
          | None => throw CheckParametersError
          end
      end
  end.

End Operations.

(** ** More helpers for the Lambda entry point *)

Module Obj.

(** [o[k] = v]: an existing property keeps its place. *)
Fixpoint set (k : string) (v : JsValue) (o : JsObject) : JsObject :=
  match o with
  | [] => [(k, v)]
  | (k', v') :: rest =>
      if String.eqb k k' then (k, v) :: rest else (k', v') :: set k v rest
  end.

(** [delete o[k]] *)
Definition remove (k : string) (o : JsObject) : JsObject :=
  List.filter (fun kv => negb (String.eqb k (fst kv))) o.

(** [{ ...base, ...over }] *)
Definition assign (base over : JsObject) : JsObject :=
  fold_left (fun acc kv => set (fst kv) (snd kv) acc) over base.

(** [Object.prototype.hasOwnProperty.call(o, k)] *)
Definition has (k : string) (o : JsObject) : bool :=
  existsb (fun kv => String.eqb k (fst kv)) o.

Definition optional (v : option string) : JsValue :=
  match v with Some s => JStr s | None => JUndefined end.

End Obj.

Module Str2.

Fixpoint lastIndexFrom (c : ascii) (i : Z) (found : Z) (s : string) : Z :=
  match s with
  | EmptyString => found
  | String c' rest =>
      lastIndexFrom c (i + 1) (if Ascii.eqb c c' then i else found) rest
  end.

(** [s.lastIndexOf(c)] *)
Definition lastIndexOf (c : ascii) (s : string) : Z := lastIndexFrom c 0 (-1) s.

(** [s.substring(start)]: a negative start counts as 0. *)
Definition substringFrom (start : Z) (s : string) : string :=
  String.substring (Z.to_nat (Z.max 0 start)) (String.length s) s.

(** [s.substring(start, stop)]: negative arguments count as 0 and the
    arguments are swapped when [start > stop]. *)
Definition substring (start stop : Z) (s : string) : string :=
  let a := Z.max 0 start in
  let b := Z.max 0 stop in
  let lo := Z.min a b in
  let hi := Z.max a b in
  String.substring (Z.to_nat lo) (Z.to_nat (hi - lo)) s.

(** Splitting on a non-empty separator string: [skip] counts the
    characters of a separator still to be dropped, [cur] is the piece
    being read, reversed. *)
Fixpoint splitAux (sep : string) (skip : nat) (cur : list ascii) (s : string)
    : list string :=
  match s with
  | EmptyString => [string_of_list_ascii (rev cur)]
  | String c rest =>
      match skip with
      | S n => splitAux sep n cur rest
      | O =>
          if String.prefix sep s
          then string_of_list_ascii (rev cur)
                 :: splitAux sep (String.length sep - 1) [] rest
          else splitAux sep O (c :: cur) rest
      end
  end.

(** [s.split(sep)] for a string separator; the empty separator splits
    into characters. *)
Definition splitStr (sep s : string) : list string :=
  if String.eqb sep "" then map (fun c => String c EmptyString) (list_ascii_of_string s)
  else splitAux sep O [] s.

(** [parts.join(sep)] *)
Definition join (sep : string) (parts : list string) : string :=
  String.concat sep parts.

(** [s.replace(/pattern/g, by)] for a literal pattern. *)
Definition replaceAll (pattern by_ s : string) : string :=
  join by_ (splitStr pattern s).

End Str2.

(** ** Base64: [buffer.toString("base64")] *)

Definition base64Alphabet : string :=
  "ABCDEFGHIJKLMNOPQRSTUVWXYZabcdefghijklmnopqrstuvwxyz0123456789+/".

Definition base64Char (n : N) : ascii :=
  match String.get (N.to_nat n) base64Alphabet with
  | Some c => c
  | None => "="%char
  end.

Definition sextets (a b c : Byte.byte) : N * N * N * N :=
  let n := (Byte.to_N a * 65536 + Byte.to_N b * 256 + Byte.to_N c)%N in
  ((n / 262144) mod 64, (n / 4096) mod 64, (n / 64) mod 64, n mod 64)%N.

Fixpoint toBase64 (buf : Buffer) : string :=
  match buf with
  | [] => EmptyString
  | [a] =>
      let '(s1, s2, _, _) := sextets a Byte.x00 Byte.x00 in
      String (base64Char s1) (String (base64Char s2) "==")
  | [a; b] =>
      let '(s1, s2, s3, _) := sextets a b Byte.x00 in
      String (base64Char s1) (String (base64Char s2) (String (base64Char s3) "="))
  | a :: b :: c :: rest =>
      let '(s1, s2, s3, s4) := sextets a b c in
      String (base64Char s1) (String (base64Char s2)
        (String (base64Char s3) (String (base64Char s4) (toBase64 rest))))
  end.

(** ** Events and results of the Lambda entry point *)

Module Event.

(** lib/interfaces.ts, [ImageHandlerEvent] *)
Record ImageHandlerEvent : Type := mkEvent {
  path : option string;
  queryStringParameters : option JsObject;
  requestContext : option JsObject;
  headers : option JsObject
}.

(** The part of an upload notification record that the handler reads:
    [eventSource], [s3.bucket.name] and [s3.object.key]. *)
Record S3EventRecord : Type := mkRecord {
  eventSource : string;
  bucketName : string;
  objectKey : string
}.

Record UserRequest : Type := mkUserRequest {
  url : string;
  (** [userRequest.headers.Host] *)
  Host : option string;
  userHeaders : JsObject
}.

Record GetObjectContext : Type := mkContext {
  outputRoute : string;
  outputToken : string
}.

Inductive LambdaEvent : Type :=
| Notification (Records : list S3EventRecord)
| Proxy (event : ImageHandlerEvent)
| ObjectLambda (userRequest : UserRequest) (getObjectContext : option GetObjectContext).

End Event.
Export Event (ImageHandlerEvent, S3EventRecord, LambdaEvent).

Module Result.

(** [ImageHandlerExecutionResult] *)
Record ImageHandlerExecutionResult : Type := mkResult {
  statusCode : Z;
  isBase64Encoded : bool;
  headers : JsObject;
  body : ResponseBody
}.

(** What the handler resolves to. *)
Inductive HandlerResult : Type :=
| Void
| Execution (result : ImageHandlerExecutionResult)
| HeadObject (statusCode : Z) (headers : JsObject).

End Result.

Module Batch.

(** One configured variant of the batch controller. *)
Record Transform : Type := mkTransform {
  width : Z;
  height : Z;
  suffix : string;
  fit : option string;
  quality : option Z;
  watermark : option JsObject;
  outputFormat : option string
}.

Definition num (n : Z) : JsValue := JNum (inject_Z n).

(** The variant as a plain object, for JSON.stringify. *)
Definition toJs (t : Transform) : JsValue :=
  JObj ([("width", num (width t)); ("height", num (height t)); ("suffix", JStr (suffix t))]
        ++ match fit t with Some f => [("fit", JStr f)] | None => [] end
        ++ match quality t with Some q => [("quality", num q)] | None => [] end
        ++ match watermark t with Some wm => [("watermark", JObj wm)] | None => [] end
        ++ match outputFormat t with Some f => [("outputFormat", JStr f)] | None => [] end)%list.

End Batch.

(** The class [ImageRequest] (image-request.ts) and the SDK options
    (solution-utils/get-options) are not among the sources: what the entry
    point uses of them is a parameter. So is the one place where the text of
    the entry point does not settle what runs, the second [catch] clause of
    the [try] in handleS3Event. *)
Class Collaborators : Type := {
  (** [await imageRequest.setup(event)] *)
  setup : ImageHandlerEvent -> M ImageRequestInfo;
  (** [imageRequest.parseImageHeaders(event, RequestTypes.DEFAULT)] *)
  parseImageHeaders : ImageHandlerEvent -> Completion (option JsObject);
  (** The body of the inner [try] of the first transformation loop of
      handleS3Event, which builds an [ImageRequest] from a literal and hands
      it to the handler: arguments are the bucket, the key, the fetched
      object and the variant. *)
  firstLoopVariant : string -> string -> S3.Object -> Batch.Transform -> M unit;
  (** [awsSdkOptions.region] *)
  region : option string;
  (** [new URLSearchParams(queryString).entries()] *)
  URLSearchParams : string -> list (string * string);
  (** What becomes of an error that leaves the block of [catch (err)] in
      handleS3Event. The source follows that block with a second clause,
      [catch (recordError)], on the same [try]; the language has no such
      statement, so whether the error reaches that clause is not given by
      the source. *)
  afterFirstCatch : JsError -> M unit
}.

Definition LAMBDA_PAYLOAD_LIMIT : Z := 6 * 1024 * 1024.

Definition IMAGE_FORMATS : list string :=
  [".jpg"; ".jpeg"; ".png"; ".gif"; ".webp"; ".tiff"; ".svg"].

Definition includesString (l : list string) (s : string) : bool :=
  existsb (String.eqb s) l.

(** A [for ... of] loop whose body may throw: the first throw ends it. *)
Fixpoint forOf {A} (items : list A) (body : A -> M unit) : M unit :=
  match items with
  | [] => ret tt
  | x :: rest => _ ← body x; forOf rest body
  end.

(** A [for ... of] loop that pushes onto an array declared before it. *)
Fixpoint forOfPush {A B} (items : list A) (body : list B -> A -> M (list B))
    (acc : list B) : M (list B) :=
  match items with
  | [] => ret acc
  | x :: rest => acc' ← body acc x; forOfPush rest body acc'
  end.

(** getContentTypeFromExtension *)
Definition getContentTypeFromExtension (extension : string) : string :=
  if String.eqb extension ".jpg" then "image/jpeg"
  else if String.eqb extension ".jpeg" then "image/jpeg"
  else if String.eqb extension ".png" then "image/png"
  else if String.eqb extension ".gif" then "image/gif"
  else if String.eqb extension ".webp" then "image/webp"
  else if String.eqb extension ".tiff" then "image/tiff"
  else if String.eqb extension ".svg" then "image/svg+xml"
  else "application/octet-stream".

(** getOutputFormat *)
Definition getOutputFormat (contentType : string) (transform : Batch.Transform) : string :=
  let declared := default "" (Batch.outputFormat transform) in
  if negb (String.eqb declared "") then declared
  else if String.eqb (Batch.suffix transform) "thumb" then "webp"
  else if Str.includes "jpeg" contentType || Str.includes "jpg" contentType then "jpeg"
  else if Str.includes "png" contentType then "png"
  else if Str.includes "webp" contentType then "webp"
  else if Str.includes "gif" contentType then "gif"
  else "jpeg".

(** isS3Event *)
Definition isS3Event (event : LambdaEvent) : bool :=
  match event with
  | Event.Notification (first :: _) => String.eqb (Event.eventSource first) "aws:s3"
  | _ => false
  end.

(** An error as JSON.stringify sees it: the own properties of an
    [ImageHandlerError] are status, code and message. *)
Definition errorToJs (e : JsError) : JsValue :=
  JObj (match status e with Some s => [("status", Batch.num (statusValue s))] | None => [] end
        ++ match code e with Some c => [("code", JStr c)] | None => [] end
        ++ [("message", JStr (message e))])%list.

(** [key.slice(0, 3).replace("ol-", "") + key.slice(3)] *)
Definition stripOlPrefix (key : string) : string :=
  (if String.eqb (Str2.substring 0 3 key) "ol-" then "" else Str2.substring 0 3 key)
    ++ Str2.substringFrom 3 key.

(** ** The Lambda entry point *)

Section EntryPoint.
Context `{Runtime} `{Collaborators}.
Variable env : Env.

(** getResponseHeaders *)
Definition getResponseHeaders (isError isAlb : bool) : JsObject :=
  let corsEnabled := envIs env "CORS_ENABLED" "Yes" in
  let headers :=
    [("Access-Control-Allow-Methods", JStr "GET");
     ("Access-Control-Allow-Headers", JStr "Content-Type, Authorization")] in
  let headers :=
    if negb isAlb then Obj.set "Access-Control-Allow-Credentials" (JStr "true") headers
    else headers in
  let headers :=
    if corsEnabled
    then Obj.set "Access-Control-Allow-Origin" (Obj.optional (env !! "CORS_ORIGIN")) headers
    else headers in
  if isError then Obj.set "Content-Type" (JStr "application/json") headers else headers.

(** getErrorResponse *)
Definition getErrorResponse (error : JsError) : Z * string :=
  match status error with
  | Some s => (statusValue s, JSON_stringify (errorToJs error))
  | None =>
      (statusValue INTERNAL_SERVER_ERROR,
       JSON_stringify
         (JObj [("message", JStr "Internal error. Please contact the system administrator.");
                ("code", JStr "InternalError");
                ("status", Batch.num (statusValue INTERNAL_SERVER_ERROR))]))
  end.

(** The response built when no fallback image replaces the error. *)
Definition errorResult (isAlb : bool) (error : JsError) : Result.ImageHandlerExecutionResult :=
  let '(statusCode, body) := getErrorResponse error in
  Result.mkResult statusCode false (getResponseHeaders true isAlb) (BodyString body).

Definition TooLargeImageException : JsError :=
  ImageHandlerError REQUEST_TOO_LONG "TooLargeImageException"
    "The converted image is too large to return.".

(** handleDefaultFallbackImage *)
Definition handleDefaultFallbackImage (event : ImageHandlerEvent) (isAlb : bool)
    (error : JsError) : M Result.ImageHandlerExecutionResult :=
  defaultFallbackImage ←
    getObject (default "" (env !! "DEFAULT_FALLBACK_IMAGE_BUCKET"))
              (default "" (env !! "DEFAULT_FALLBACK_IMAGE_KEY"));
  let headers := getResponseHeaders false isAlb in
  let headers := Obj.set "Content-Type" (Obj.optional (S3.ContentType defaultFallbackImage)) headers in
  let headers := Obj.set "Last-Modified" (Obj.optional (S3.LastModified defaultFallbackImage)) headers in
  let headers :=
    match parseImageHeaders event with
    | Normal parsed => Obj.set "Cache-Control" (getProp "Cache-Control" (default [] parsed)) headers
    | Throw _ => headers
    end in
  let headers :=
    Obj.set "Cache-Control"
      (nullish (Obj.optional (S3.CacheControl defaultFallbackImage))
         (nullish (getProp "Cache-Control" headers) (JStr "max-age=31536000,public")))
      headers in
  ret (Result.mkResult
         (match status error with
          | Some s => statusValue s
          | None => statusValue INTERNAL_SERVER_ERROR
          end)
         true headers
         (if envIs env "ENABLE_S3_OBJECT_LAMBDA" "Yes"
          then BodyBuffer (S3.Body defaultFallbackImage)
          else BodyString (toBase64 (S3.Body defaultFallbackImage)))).

Definition fallbackConfigured : bool :=
  envIs env "ENABLE_DEFAULT_FALLBACK_IMAGE" "Yes"
  && negb (isNullOrWhiteSpace (env !! "DEFAULT_FALLBACK_IMAGE_BUCKET"))
  && negb (isNullOrWhiteSpace (env !! "DEFAULT_FALLBACK_IMAGE_KEY")).

(** The response headers of a successful request. *)
Definition successHeaders (info : ImageRequestInfo) (isAlb : bool) : JsObject :=
  let h0 := Obj.set "Cache-Control" (Obj.optional (cacheControl info)) [] in
  let h1 :=
    match headers info with
    | Some custom => Obj.assign h0 custom
    | None => h0
    end in
  let h2 :=
    match secondsToExpiry info with
    | Some seconds =>
        Obj.set "Cache-Control" (JStr ("max-age=" ++ Str.ofZ seconds ++ ",public")) h1
    | None => h1
    end in
  let h3 := Obj.assign h2 (getResponseHeaders false isAlb) in
  let h4 := Obj.set "Content-Type" (Obj.optional (contentType info)) h3 in
  let h5 := Obj.set "Expires" (Obj.optional (expires info)) h4 in
  Obj.set "Last-Modified" (Obj.optional (lastModified info)) h5.

(** The body of the [try] block of handleRequest. *)
Definition handleRequestBody (event : ImageHandlerEvent) (isAlb : bool)
    : M Result.ImageHandlerExecutionResult :=
  imageRequestInfo ← setup event;
  processedRequest ← process env imageRequestInfo;
  body ←
    (if negb (envIs env "ENABLE_S3_OBJECT_LAMBDA" "Yes") then
       let encoded := toBase64 processedRequest in
       if Z.of_nat (String.length encoded) >? LAMBDA_PAYLOAD_LIMIT
       then throw TooLargeImageException
       else ret (BodyString encoded)
     else ret (BodyBuffer processedRequest));
  ret (Result.mkResult (statusValue OK) true (successHeaders imageRequestInfo isAlb) body).

(** handleRequest *)
Definition handleRequest (event : ImageHandlerEvent) : M Result.ImageHandlerExecutionResult :=
  let isAlb :=
    match Event.requestContext event with
    | Some ctx => Obj.has "elb" ctx
    | None => false
    end in
  tryCatch (handleRequestBody event isAlb)
    (fun error =>
       replaced ←
         (if fallbackConfigured then
            tryCatch (fallback ← handleDefaultFallbackImage event isAlb error;
                      ret (Some fallback))
                     (fun _ => ret None)
          else ret None);
       match replaced with
       | Some fallback => ret fallback
       | None => ret (errorResult isAlb error)
       end).

(** buildErrorResponseParams *)
Definition buildErrorResponseParams (ctx : Event.GetObjectContext) (error : JsError)
    : WriteParams :=
  let '(statusCode, body) := getErrorResponse error in
  mkWriteParams (Event.outputRoute ctx) (Event.outputToken ctx) (BodyString body)
    [("StatusCode", JStr (JSON_stringify (Batch.num statusCode)))]
    (Some (JStr "max-age-10,public")).

(** buildResponseHeaders *)
Definition buildResponseHeaders (finalResponse : Result.ImageHandlerExecutionResult)
    : JsObject :=
  let filteredHeaders :=
    List.filter (fun kv => match snd kv with JUndefined => false | _ => true end)
           (Result.headers finalResponse) in
  let responseHeaders :=
    map (fun kv => (fst kv, JStr (Str2.replaceAll "%20" " " (encodeURI (snd kv)))))
        filteredHeaders in
  let statusCode := Result.statusCode finalResponse in
  let responseHeaders :=
    if (400 <=? statusCode)%Z && (statusCode <=? 499)%Z
    then Obj.set "Cache-Control" (JStr "max-age=10,public") responseHeaders
    else responseHeaders in
  if (500 <=? statusCode)%Z && (statusCode <? 599)%Z
  then Obj.set "Cache-Control" (JStr "max-age=600,public") responseHeaders
  else responseHeaders.

(** buildWriteResponseParams *)
Definition buildWriteResponseParams (ctx : Event.GetObjectContext)
    (finalResponse : Result.ImageHandlerExecutionResult) (responseHeaders : JsObject)
    : WriteParams :=
  let cacheControl := getProp "Cache-Control" responseHeaders in
  let remaining :=
    if truthy cacheControl then Obj.remove "Cache-Control" responseHeaders
    else responseHeaders in
  mkWriteParams (Event.outputRoute ctx) (Event.outputToken ctx)
    (Result.body finalResponse)
    (Obj.assign
       [("StatusCode", JStr (JSON_stringify (Batch.num (Result.statusCode finalResponse))))]
       remaining)
    (if truthy cacheControl then Some cacheControl else None).

Definition TimeoutException : JsError :=
  ImageHandlerError TIMEOUT "TimeoutException" "Image processing timed out.".

(** What the timer of createS3ObjectLambdaTimeout resolves with. *)
Definition timeoutResult : Result.ImageHandlerExecutionResult :=
  errorResult false TimeoutException.

(** extractObjectLambdaQueryParams *)
Definition extractObjectLambdaQueryParams (queryString : option string) : JsObject :=
  match queryString with
  | None => []
  | Some q =>
      fold_left (fun results kv => Obj.set (stripOlPrefix (fst kv)) (JStr (snd kv)) results)
                (URLSearchParams q) []
  end.

(** normalizeEvent, for an Object Lambda event. A missing piece of the URL
    is a TypeError on the next method call. *)
Definition normalizeObjectLambda (userRequest : Event.UserRequest)
    : Completion ImageHandlerEvent :=
  let pieces :=
    match Event.Host userRequest with
    | Some host => Str2.splitStr host (Event.url userRequest)
    | None => [Event.url userRequest]
    end in
  match pieces !! 1%nat with
  | None => Throw (TypeError "Cannot read properties of undefined (reading 'split')")
  | Some fullPath =>
      let parts := Str2.splitStr "?" fullPath in
      match parts with
      | [] => Throw (TypeError "Cannot read properties of undefined (reading 'split')")
      | pathString :: rest =>
          Normal (Event.mkEvent
                    (Some (Str2.join "/image" (drop 1 (Str2.splitStr "/image" pathString))))
                    (Some (extractObjectLambdaQueryParams (head rest)))
                    (Some [])
                    (Some (Event.userHeaders userRequest)))
      end
  end.

Definition S3ObjectLambdaWriteError : JsError :=
  ImageHandlerError BAD_REQUEST "S3ObjectLambdaWriteError"
    "It was not possible to write the response to S3 Object Lambda.".

(** [body.length] *)
Definition bodyLength (body : ResponseBody) : Z :=
  match body with
  | BodyBuffer b => Z.of_nat (length b)
  | BodyString s => Z.of_nat (String.length s)
  end.

(** The end of the handler: the write-back call and its [catch]. *)
Definition writeBack (ctx : Event.GetObjectContext)
    (finalResponse : Result.ImageHandlerExecutionResult) (responseHeaders : JsObject)
    : M Result.HandlerResult :=
  let params := buildWriteResponseParams ctx finalResponse responseHeaders in
  _ ← tryCatch (writeGetObjectResponse params)
        (fun error =>
           let errorParams := buildErrorResponseParams ctx S3ObjectLambdaWriteError in
           writeGetObjectResponse errorParams);
  ret Result.Void.

(** [Promise.race([response, timeoutPromise])]: the processing runs, and
    the world says which of the two settles first. *)
Definition raceTimeout (response : M Result.ImageHandlerExecutionResult)
    : M Result.ImageHandlerExecutionResult :=
  finished ← response;
  timedOut ← getTimerFiresFirst;
  ret (if (timedOut : bool) then timeoutResult else finished).

End EntryPoint.

(** ** The batch ingestion controller and the handler *)

Section BatchController.
Context `{Runtime} `{Collaborators}.
Variable env : Env.

Definition IMAGE_METADATA_TABLE : string := envOr env "IMAGE_METADATA_TABLE" "image-metadata".
Definition ENABLE_WATERMARK : bool := envIs env "ENABLE_WATERMARK" "Yes".
Definition WATERMARK_TEXT : string := envOr env "WATERMARK_TEXT" "© Copyright".

Definition URIError : JsError := mkError "URIError" None None "URI malformed".

(** [decodeURIComponent(record.s3.object.key.replace(/\+/g, ' '))] *)
Definition decodeKey (objectKey : string) : M string :=
  match decodeURIComponent (Str2.replaceAll "+" " " objectKey) with
  | Some key => ret key
  | None => throw URIError
  end.

(** generateUniqueId *)
Definition generateUniqueId : M string := fun w =>
  (Normal ("img_" ++ Str.ofZ (now w) ++ "_" ++ randomDigits w), w).

(** *** The block of the outer [try] *)

Definition firstTransformations : list Batch.Transform :=
  [ Batch.mkTransform 100 100 "thumb" None None None None;
    Batch.mkTransform 500 500 "medium" None None None None;
    Batch.mkTransform 1024 1024 "large" None None None None ].

Definition firstBody (record : S3EventRecord) : M unit :=
  let bucket := Event.bucketName record in
  key ← decodeKey (Event.objectKey record);
  let fileExt := Str2.substringFrom (Str2.lastIndexOf "." key) (Str.toLowerCase key) in
  if negb (includesString IMAGE_FORMATS fileExt) then ret tt
  else
    originalImage ← getObject bucket key;
    forOf firstTransformations (fun transform =>
      tryCatch (firstLoopVariant bucket key originalImage transform)
               (fun transformError => ret tt)).

(** *** The block of [catch (err)] *)

Definition secondTransformations : list Batch.Transform :=
  [ Batch.mkTransform 100 100 "thumb" None (Some 80) None None;
    Batch.mkTransform 500 500 "medium" None (Some 85) None None;
    Batch.mkTransform 1024 1024 "large" None (Some 90) None None;
    Batch.mkTransform 1920 1080 "banner" (Some "inside") (Some 90) None None ]
  ++ (if ENABLE_WATERMARK
      then [ Batch.mkTransform 2048 2048 "watermarked" (Some "inside") (Some 95)
               (Some [("text", JStr WATERMARK_TEXT); ("opacity", JNum (1 # 2));
                      ("position", JStr "bottom-right")])
               None ]
      else []).

(** The [requestInfo] literal with the watermark and quality settings
    added to its edits. *)
Definition variantEdits (transform : Batch.Transform) (outputFormat : string) : JsObject :=
  let edits0 : JsObject :=
    [ ("resize", JObj [ ("width", Batch.num (Batch.width transform));
                        ("height", Batch.num (Batch.height transform));
                        ("fit", JStr (Str.orElse (default "" (Batch.fit transform)) "cover")) ]);
      ("toFormat", JStr outputFormat);
      ("flatten", if String.eqb outputFormat "jpeg"
                  then JObj [("background", JStr "#ffffff")] else JUndefined);
      ("compress", JBool true);
      ("withMetadata", JBool false) ] in
  let edits1 :=
    match Batch.watermark transform with
    | Some wm => Obj.set "watermark" (JObj wm) edits0
    | None => edits0
    end in
  match Batch.quality transform with
  | Some quality =>
      if (quality =? 0)%Z then edits1
      else
        let block := JObj [("quality", Batch.num quality)] in
        if String.eqb outputFormat "jpeg" || String.eqb outputFormat "jpg"
        then Obj.set "jpeg" block edits1
        else if String.eqb outputFormat "png" then Obj.set "png" block edits1
        else if String.eqb outputFormat "webp" then Obj.set "webp" block edits1
        else edits1
  | None => edits1
  end.

Definition variantRequest (bucket key : string) (imageBuffer : Buffer)
    (contentType : string) (transform : Batch.Transform) (outputFormat : string)
    : ImageRequestInfo :=
  mkRequest "" bucket key (Some (variantEdits transform outputFormat)) imageBuffer
    None (Some contentType) None (Some outputFormat) None None None None None.

(** The block of the inner [try] of the second loop, up to the [push] of
    the success entry. *)
Definition variantAttempt (OUTPUT_BUCKET bucket key fileName processingId : string)
    (imageBuffer : Buffer) (contentType : string) (transform : Batch.Transform)
    : M ProcessingResult :=
  let outputFormat := getOutputFormat contentType transform in
  let requestInfo := variantRequest bucket key imageBuffer contentType transform outputFormat in
  processedImage ← process env requestInfo;
  let outputKey :=
    "processed/" ++ fileName ++ "-" ++ Batch.suffix transform ++ "." ++ outputFormat in
  _ ← putObject OUTPUT_BUCKET outputKey
        (S3.mkObject processedImage (Some ("image/" ++ outputFormat))
           (Some "public, max-age=31536000") None
           (Some ("inline; filename=" ++ dq ++ fileName ++ "-" ++ Batch.suffix transform
                    ++ "." ++ outputFormat ++ dq))
           [ ("original-bucket", bucket); ("original-key", key);
             ("transformation", JSON_stringify (Batch.toJs transform));
             ("processing-id", processingId) ]);
  let outputUrl :=
    "https://" ++ OUTPUT_BUCKET ++ ".s3." ++ Str.orElse (default "" region) "us-east-1"
      ++ ".amazonaws.com/" ++ outputKey in
  ret (mkResult (Batch.suffix transform) (Some outputKey) (Some outputFormat)
         (Some outputUrl) (Some (Batch.width transform)) (Some (Batch.height transform))
         "success" None).

(** The entry pushed by [catch (transformError)]. *)
Definition variantFailure (transform : Batch.Transform) (transformError : JsError)
    : ProcessingResult :=
  mkResult (Batch.suffix transform) None None None None None "error"
    (Some (Str.orElse (message transformError) "Unknown error during transformation")).

(** One turn of the second loop. *)
Definition variantTurn (OUTPUT_BUCKET bucket key fileName processingId : string)
    (imageBuffer : Buffer) (contentType : string)
    (processingResults : list ProcessingResult) (transform : Batch.Transform)
    : M (list ProcessingResult) :=
  tryCatch
    (entry ← variantAttempt OUTPUT_BUCKET bucket key fileName processingId
               imageBuffer contentType transform;
     ret (processingResults ++ [entry])%list)
    (fun transformError =>
       ret (processingResults ++ [variantFailure transform transformError])%list).

Definition processVariants (OUTPUT_BUCKET bucket key fileName processingId : string)
    (imageBuffer : Buffer) (contentType : string) (transformations : list Batch.Transform)
    : M (list ProcessingResult) :=
  forOfPush transformations
    (variantTurn OUTPUT_BUCKET bucket key fileName processingId imageBuffer contentType) [].

Definition secondBody (OUTPUT_BUCKET : string) (record : S3EventRecord) : M unit :=
  startTime ← getNow;
  let bucket := Event.bucketName record in
  key ← decodeKey (Event.objectKey record);
  if negb (Str.startsWith "uploads/" key) then ret tt
  else
    let fileExtension := Str.toLowerCase (Str2.substringFrom (Str2.lastIndexOf "." key) key) in
    if negb (includesString IMAGE_FORMATS fileExtension) then ret tt
    else
      tryCatch
        (imageObject ← getObject bucket key;
         let imageBuffer := S3.Body imageObject in
         let contentType :=
           Str.orElse (default "" (S3.ContentType imageObject))
                      (getContentTypeFromExtension fileExtension) in
         processingId ← generateUniqueId;
         let fileNameParts := Str.split "." (List.last (Str.split "/" key) "") in
         let fileExt := List.last fileNameParts "" in
         let fileName := Str2.join "." (removelast fileNameParts) in
         processingResults ←
           processVariants OUTPUT_BUCKET bucket key fileName processingId
             imageBuffer contentType secondTransformations;
         tryCatch
           (finished ← getNow;
            batchPut IMAGE_METADATA_TABLE processingId
              (BatchCompleted processingId fileName bucket key fileExt contentType
                 OUTPUT_BUCKET processingResults (finished - startTime)
                 (toISOString finished) "completed"))
           (fun dbError => ret tt))
        (fun processingError =>
           tryCatch
             (if negb (String.eqb IMAGE_METADATA_TABLE "") then
                id ← generateUniqueId;
                createdAt ← getNow;
                batchPut IMAGE_METADATA_TABLE id
                  (BatchError id bucket key
                     (Str.orElse (message processingError) "Unknown error")
                     (toISOString createdAt) "error")
              else ret tt)
             (fun metadataError => ret tt)).

(** The [try] of one record with its [catch (err)] clause, as the source
    has them: [try { firstBody } catch (err) { secondBody }]. *)
Definition recordAttempt (OUTPUT_BUCKET : string) (record : S3EventRecord) : M unit :=
  tryCatch (firstBody record) (fun err => secondBody OUTPUT_BUCKET record).

(** One turn of the loop over the records. An error that leaves the block
    of [catch (err)] goes where [afterFirstCatch] says. *)
Definition recordTurn (OUTPUT_BUCKET : string) (record : S3EventRecord) : M unit :=
  tryCatch (recordAttempt OUTPUT_BUCKET record) afterFirstCatch.

(** handleS3Event *)
Definition handleS3Event (Records : list S3EventRecord) : M unit :=
  let OUTPUT_BUCKET := default "" (env !! "OUTPUT_BUCKET") in
  if String.eqb OUTPUT_BUCKET ""
  then throw (plainError "OUTPUT_BUCKET environment variable not set")
  else forOf Records (recordTurn OUTPUT_BUCKET).

(** normalizeEvent *)
Definition normalizeEvent (event : LambdaEvent) : Completion ImageHandlerEvent :=
  if envIs env "ENABLE_S3_OBJECT_LAMBDA" "Yes" then
    match event with
    | Event.ObjectLambda userRequest _ => normalizeObjectLambda userRequest
    | _ => Throw (TypeError "Cannot read properties of undefined (reading 'url')")
    end
  else
    match event with
    | Event.Proxy e => Normal e
    | _ => Normal (Event.mkEvent None None None None)
    end.

(** handler *)
Definition handler (event : LambdaEvent) : M Result.HandlerResult :=
  match event with
  | Event.Notification Records =>
      if isS3Event event then
        tryCatch (_ ← handleS3Event Records; ret Result.Void)
                 (fun error => throw error)
      else
        normalizedEvent ← lift (normalizeEvent event);
        result ← handleRequest env normalizedEvent;
        ret (Result.Execution result)
  | _ =>
      normalizedEvent ← lift (normalizeEvent event);
      if negb (envIs env "ENABLE_S3_OBJECT_LAMBDA" "Yes") then
        result ← handleRequest env normalizedEvent;
        ret (Result.Execution result)
      else
        finalResponse ← raceTimeout env (handleRequest env normalizedEvent);
        let responseHeaders := buildResponseHeaders finalResponse in
        match event with
        | Event.ObjectLambda _ (Some ctx) =>
            writeBack ctx finalResponse responseHeaders
        | _ =>
            ret (Result.HeadObject (Result.statusCode finalResponse)
                   (Obj.assign responseHeaders
                      [("Content-Length", Batch.num (bodyLength (Result.body finalResponse)))]))
        end
  end.

End BatchController.

(** ** Vocabulary of the properties *)

(** A colour string of [n] hex digits, with or without a leading [#]. *)
Definition hexDigits (n : nat) (digits : string) : Prop :=
  String.length digits = n /\ Forall (fun c => isHexDigit c = true) (list_ascii_of_string digits).

Definition isHexColor (n : nat) (s : string) : Prop :=
  exists digits, hexDigits n digits /\ (s = digits \/ s = String "#" digits).

(** A nibble written twice. *)
Definition doubled (c : ascii) : string := String c (String c EmptyString).

(** The first of jpeg, png, webp, tiff, gif, avif whose key is truthy. *)
Definition firstFormatKey (edits : JsObject) : option ImageFormatTypes :=
  find (fun f => truthy (getProp (formatName f) edits)) allFormats.

(** The stages of applyEdits that come before the watermark, in the order
    of the claim. *)
Inductive Stage : Type :=
| SResize | SGrayscale | SFlip | SFlop | SRotate | SBackgroundFlatten | SFlatten
| SRgb | SNormalize | SThreshold | SSharpen | SBlur | SExtend.

Definition stagesInOrder : list Stage :=
  [ SResize; SGrayscale; SFlip; SFlop; SRotate; SBackgroundFlatten; SFlatten;
    SRgb; SNormalize; SThreshold; SSharpen; SBlur; SExtend ].

(** Whether the edit set asks for a stage: its key is set (for rotate:
    not undefined), and for rgb some channel is not zero. *)
Definition requested (edits : JsObject) (stage : Stage) : bool :=
  match stage with
  | SResize => truthy (getProp "resize" edits)
  | SGrayscale => truthy (getProp "grayscale" edits)
  | SFlip => truthy (getProp "flip" edits)
  | SFlop => truthy (getProp "flop" edits)
  | SRotate => match getProp "rotate" edits with JUndefined => false | _ => true end
  | SBackgroundFlatten => truthy (getProp "background" edits)
  | SFlatten => truthy (getProp "flatten" edits)
  | SRgb =>
      truthy (getProp "rgb" edits)
      && existsb notStrictZero (objectValues (getProp "rgb" edits))
  | SNormalize => truthy (getProp "normalize" edits)
  | SThreshold => truthy (getProp "threshold" edits)
  | SSharpen => truthy (getProp "sharpen" edits)
  | SBlur => truthy (getProp "blur" edits)
  | SExtend => truthy (getProp "extend" edits)
  end.

Section ClaimedPipeline.
Context `{Runtime}.

(** The engine operation of a requested stage; a colour that is not a
    string makes the stage fail. *)
Definition stageOp (edits : JsObject) (stage : Stage) : Completion SharpOp :=
  match stage with
  | SResize =>
      let resize := getProp "resize" edits in
      let fit := member resize "fit" in
      let position := nullish (member resize "position") (JStr "center") in
      if truthy fit && notStrictString fit "cover" then
        background ← hexOr (member resize "background") transparentBlack;
        Normal (OpResizeOptions (member resize "width") (member resize "height") fit
                  position background)
      else
        Normal (OpResize (member resize "width") (member resize "height")
                  (Some (nullish fit (JStr "cover"), position)))
  | SGrayscale => Normal OpGrayscale
  | SFlip => Normal OpFlip
  | SFlop => Normal OpFlop
  | SRotate =>
      background ← hexOr (getProp "background" edits) transparentBlack;
      Normal (OpRotate (Number (getProp "rotate" edits)) background)
  | SBackgroundFlatten =>
      background ← hexArg (getProp "background" edits);
      Normal (OpFlatten background)
  | SFlatten =>
      background ← hexOr (member (getProp "flatten" edits) "background") (rgb 0 0 0);
      Normal (OpFlatten background)
  | SRgb => Normal (OpModulate (spread (getProp "rgb" edits)))
  | SNormalize => Normal OpNormalize
  | SThreshold => Normal (OpThreshold (getProp "threshold" edits))
  | SSharpen => Normal (OpSharpen (getProp "sharpen" edits))
  | SBlur => Normal (OpBlur (getProp "blur" edits))
  | SExtend =>
      let extend := getProp "extend" edits in
      background ← hexOr (member extend "background") transparentBlack;
      Normal (OpExtend (withDefault (member extend "top") (JNum 0))
                (withDefault (member extend "bottom") (JNum 0))
                (withDefault (member extend "left") (JNum 0))
                (withDefault (member extend "right") (JNum 0)) background)
  end.

(** The results of a list of computations, the first failure ending it. *)
Fixpoint collect {A} (l : list (Completion A)) : Completion (list A) :=
  match l with
  | [] => Normal []
  | c :: rest => a ← c; others ← collect rest; Normal (a :: others)
  end.

(** The operations of the requested stages, in the order of the claim. *)
Definition stageOps (edits : JsObject) : Completion (list SharpOp) :=
  collect (map (stageOp edits) (List.filter (requested edits) stagesInOrder)).

(** The watermark: the text layer is rendered at the size of the image as
    edited so far, that image is rendered too, and a fresh engine instance
    on the rendered image gets the layer composited at its centre. *)
Definition watermarkOver (edits : JsObject) (edited : Sharp) : Completion Sharp :=
  let watermark := getProp "watermark" edits in
  match withDefault (member watermark "position") (JStr "center") with
  | JStr position =>
      let svg :=
        bufferFrom
          (svgText (member watermark "text")
             (withDefault (member watermark "color") (JStr "#ffffff"))
             (withDefault (member watermark "opacity") (JNum (1 # 2)))
             (withDefault (member watermark "fontSize") (JNum 48))
             (withDefault (member watermark "padding") (JNum 20)) position) in
      metadata ← sharp_metadata edited;
      layer ← sharp_toBuffer
                (mkSharp svg None
                   [OpResize (dimension (width metadata)) (dimension (height metadata)) None]);
      rendered ← sharp_toBuffer edited;
      Normal (mkSharp rendered None [OpComposite layer "center"])
  | _ => Throw (TypeError "position.includes is not a function")
  end.

(** The one format block: the options of the first of jpeg, png, webp,
    tiff, gif, avif whose key is set; none when no such key is set. *)
Definition formatBlock (edits : JsObject) : list SharpOp :=
  match firstFormatKey edits with
  | Some f => [OpFormat f (Some (getProp (formatName f) edits))]
  | None => []
  end.

(** The engine instance the claim describes: the stages in their order on
    the original image, then the watermark, then the format block. *)
Definition pipelineInOrder (original : Buffer) (edits : JsObject) : Completion Sharp :=
  staged ← stageOps edits;
  let edited := mkSharp original (Some "none") staged in
  overlaid ← (if truthy (getProp "watermark" edits) then watermarkOver edits edited
              else Normal edited);
  Normal (mkSharp (input overlaid) (failOn overlaid) (ops overlaid ++ formatBlock edits)%list).

End ClaimedPipeline.

(** How a statement of applyEdits stands for a stage: it queues the
    operation of the stage when the stage is requested, and does nothing
    otherwise. *)
Definition performs `{Runtime} (stage : Stage) (s : Step) : Prop :=
  forall edits p,
    s edits p =
      if requested edits stage then op ← stageOp edits stage; Normal (enqueue p op)
      else Normal p.


(** Entry into the edit pipeline executor. *)
Definition isPipelineCall (c : Call) : bool :=
  match c with
  | EnterApplyEdits | EnterApplyFormatting => true
  | _ => false
  end.

(** The trace of [w'] is the trace of [w] followed by calls that are all
    [allowed]. *)
Definition traceExtends (allowed : Call -> bool) (w w' : World) : Prop :=
  exists extra, (calls w' = calls w ++ extra)%list /\ forallb allowed extra = true.

(** The [n]-th external call from now on is let through. *)
Definition accepted (n : nat) (w : World) : bool :=
  match outcomes w !! n with
  | Some (Some _) => false
  | _ => true
  end.

(** What process hands to the formatting stage: the edited image, or the
    source bytes when the request has no edits. *)
Definition editedOrSource `{Runtime} (info : ImageRequestInfo) : Completion Buffer :=
  match edits info with
  | Some e => applyEdits (originalImage info) e
  | None => Normal (originalImage info)
  end.

(** A requested output format that process converts to. *)
Definition convertible (outputFormat : option string) : bool :=
  match outputFormat with
  | Some f => negb (String.eqb f "") && formatsInclude (Some f)
  | None => false
  end.

(** Running [m] relates every world to the world it leaves behind. *)
Definition respects {A} (R : World -> World -> Prop) (m : M A) : Prop :=
  forall w, R w (snd (m w)).


(** Neither the object store nor the document stores change. *)
Definition sameStores (w w' : World) : Prop :=
  objects w' = objects w /\ metadataItems w' = metadataItems w
  /\ batchItems w' = batchItems w.


(** [isAlb] as handleRequest computes it. *)
Definition isAlbOf (event : ImageHandlerEvent) : bool :=
  match Event.requestContext event with
  | Some ctx => Obj.has "elb" ctx
  | None => false
  end.


(** ** Concrete runtime and collaborators, for the examples *)

Definition exampleRuntime : Runtime := {|
  sharp_toBuffer := fun img => Normal (input img);
  sharp_metadata := fun img => Normal (mkMetadata (Some "jpeg") (Some 4) (Some 3));
  JSON_stringify := fun v =>
    match v with
    | JObj props => "{" ++ String.concat "," (map fst props) ++ "}"
    | _ => "null"
    end;
  toStr := fun v => match v with JStr s => s | _ => "" end;
  stringToNumber := fun _ => JNaN;
  encodeURI := fun v => match v with JStr s => s | _ => "" end;
  decodeURIComponent := fun s => Some s;
  toISOString := fun ms => Str.ofZ ms;
  isNullOrWhiteSpace := fun o =>
    match o with
    | None => true
    | Some s => forallb (fun c => Ascii.eqb c " ") (list_ascii_of_string s)
    end
|}.

Definition exampleRequest (image : Buffer) : ImageRequestInfo :=
  mkRequest "Default" "photos" "cats/tom.png" None image None None None None
    None None None None None.

Definition exampleCollaborators (info : ImageRequestInfo) : Collaborators := {|
  setup := fun _ => ret info;
  parseImageHeaders := fun _ => Normal None;
  firstLoopVariant := fun _ _ _ _ => ret tt;
  region := None;
  URLSearchParams := fun _ => [];
  afterFirstCatch := fun recordError => ret tt
|}.

Definition emptyWorld : World :=
  mkWorld ∅ ∅ ∅ [] [] 0 "k3x9a1b2" false.

(** A deployment with the cache switched on, a request, its cached
    artifact and the metadata item of the artifact. *)
Definition cacheEnv : Env :=
  {[ "OUTPUT_BUCKET_NAME" := "out"; "METADATA_TABLE_NAME" := "meta";
     "ENABLE_CACHE" := "Yes" ]}.

Definition hitRequest : ImageRequestInfo := exampleRequest (bufferFrom "source bytes").

Definition hitId : string := @generateImageId exampleRuntime hitRequest.

Definition cachedObject : S3.Object :=
  S3.mkObject (bufferFrom "cached bytes") (Some "image/jpeg") None None None [].

Definition countedItem (n : Z) : Db.ImageMetadata :=
  Db.mkImageMetadata (Some hitId) (Some "out") (Some hitId) (Some "jpeg") None None
    None (Some "image/jpeg") None None (Some "processed") None None (Some n) None.

(** The artifact is stored, its item has been read five times, and the
    coming external calls end as [outcomes] says. *)
Definition hitWorld (outcomes : list (option JsError)) : World :=
  mkWorld {[ ("out", hitId) := cachedObject ]} {[ ("meta", hitId) := countedItem 5 ]} ∅
    outcomes [] 1000 "k3x9a1b2" false.

Definition throttled : JsError :=
  mkError "ProvisionedThroughputExceededException" None None "Rate exceeded".

(** A request whose declared source type is not supported, and one that
    asks for a conversion to png. *)
Definition bmpRequest : ImageRequestInfo :=
  mkRequest "Default" "photos" "cats/tom.bmp" None (bufferFrom "source bytes") None None
    (Some (Some "bmp")) None None None None None None.

Definition pngRequest : ImageRequestInfo :=
  mkRequest "Default" "photos" "cats/tom.jpg" None (bufferFrom "source bytes") None None
    None (Some "png") None None None None None.

(** A deployment in direct-proxy mode with a default fallback image, the
    stored fallback object, and a source image of 4718593 zero bytes, whose
    base64 text is 6291460 characters long. *)
Definition fallbackEnv : Env :=
  {[ "OUTPUT_BUCKET_NAME" := "out"; "ENABLE_DEFAULT_FALLBACK_IMAGE" := "Yes";
     "DEFAULT_FALLBACK_IMAGE_BUCKET" := "assets";
     "DEFAULT_FALLBACK_IMAGE_KEY" := "fallback.png" ]}.

Definition directEnv : Env := {[ "OUTPUT_BUCKET_NAME" := "out" ]}.

Definition fallbackObject : S3.Object :=
  S3.mkObject (bufferFrom "fallback image") (Some "image/png") None None None [].

Definition fallbackWorld : World :=
  mkWorld {[ ("assets", "fallback.png") := fallbackObject ]} ∅ ∅ [] [] 1000 "k3x9a1b2" false.

Definition oversized : Buffer := repeat Byte.x00 (Z.to_nat 4718593).

(** The same deployment with an image of that size stored as its fallback
    image. *)
Definition oversizedFallbackObject : S3.Object :=
  S3.mkObject oversized (Some "image/png") None None None [].

Definition oversizedFallbackWorld : World :=
  mkWorld {[ ("assets", "fallback.png") := oversizedFallbackObject ]} ∅ ∅ [] [] 1000
    "k3x9a1b2" false.

Definition proxyEvent : ImageHandlerEvent :=
  Event.mkEvent (Some "/cats/tom.png") None None None.

(** A deployment behind S3 Object Lambda, a GetObject event, and two
    errors of the write-back call. *)
Definition objectLambdaEnv : Env :=
  {[ "OUTPUT_BUCKET_NAME" := "out"; "ENABLE_S3_OBJECT_LAMBDA" := "Yes" ]}.

Definition writeRejected : JsError :=
  mkError "ValidationError" None None "Invalid request token".

Definition writeRejectedAgain : JsError :=
  mkError "RequestTimeout" None None "The write-back call timed out".

(** The normalized form of [getObjectEvent] and the response to it. *)
Definition getObjectRequest : Event.UserRequest :=
  Event.mkUserRequest "https://images.example.com/image/cats/tom.png"
    (Some "images.example.com") [("Host", JStr "images.example.com")].

Definition getObjectContext : Event.GetObjectContext := Event.mkContext "io-route" "token-1".

Definition normalizedGetObject : ImageHandlerEvent :=
  Event.mkEvent (Some "/cats/tom.png") (Some []) (Some [])
    (Some [("Host", JStr "images.example.com")]).

Definition tomResponse : Result.ImageHandlerExecutionResult :=
  Result.mkResult 200 true
    [ ("Cache-Control", JUndefined); ("Access-Control-Allow-Methods", JStr "GET");
      ("Access-Control-Allow-Headers", JStr "Content-Type, Authorization");
      ("Access-Control-Allow-Credentials", JStr "true");
      ("Content-Type", JUndefined); ("Expires", JUndefined); ("Last-Modified", JUndefined) ]
    (BodyBuffer (bufferFrom "source bytes")).

(** A world in which the existence check goes through and the write-back
    calls end as [writes] says, and that world once the response is ready. *)
Definition writeBackWorld (writes : list (option JsError)) : World :=
  mkWorld ∅ ∅ ∅ (None :: writes) [] 1000 "k3x9a1b2" false.

Definition responseReadyWorld (writes : list (option JsError)) : World :=
  mkWorld ∅ ∅ ∅ writes [CallHeadObject "out" hitId] 1000 "k3x9a1b2" false.




(** A deployment of the batch controller, an upload notification, and the
    uploaded object. *)
Definition batchEnv : Env := {[ "OUTPUT_BUCKET" := "thumbs" ]}.


Definition uploadedObject : S3.Object :=
  S3.mkObject (bufferFrom "png bytes") (Some "image/png") None None None [].



(** The upload is stored and every call goes through, but the variants of
    the first transformation loop all fail. *)
Definition uploadedWorld : World :=
  mkWorld {[ ("uploads-bucket", "uploads/tom.png") := uploadedObject ]} ∅ ∅
    [] [] 1000 "k3x9a1b2" false.



(* ===================================================================== *)
(** * Part II: properties                                                  *)
(* ===================================================================== *)

Open Scope list_scope.

(** ** Tables *)

Lemma sameKey_refl (k : string * string) : sameKey k k = true.
Proof.
  destruct k as [a b0]. unfold sameKey, pair_key, sameKey, string_key. simpl.
  now rewrite !String.eqb_refl.
Qed.

Lemma sameKey_eq (k k' : string * string) : sameKey k k' = true -> k = k'.
Proof.
  destruct k as [a1 a2], k' as [b1 b2]. unfold sameKey, pair_key, sameKey, string_key. simpl.
  intros [E1 E2]%andb_prop. apply String.eqb_eq in E1, E2. now subst.
Qed.

Lemma store_lookup_insert_eq {V} (t : Store V) (k : string * string) (v : V) :
  <[k:=v]> t !! k = Some v.
Proof.
  unfold lookup, table_lookup, insert, table_insert. simpl. now rewrite sameKey_refl.
Qed.

Lemma store_lookup_insert_ne {V} (t : Store V) (k k' : string * string) (v : V) :
  k' <> k -> <[k:=v]> t !! k' = t !! k'.
Proof.
  intros Hne. unfold lookup, table_lookup, insert, table_insert. simpl.
  destruct (sameKey k' k) eqn:E; [|reflexivity].
  exfalso. now apply Hne, sameKey_eq.
Qed.

(** ** Hex colours *)

Lemma hexDigit_not_hash c : isHexDigit c = true -> Ascii.eqb c "#" = false.
Proof.
  destruct c as [[] [] [] [] [] [] [] []]; vm_compute; congruence.
Qed.

Lemma stripHash_cases s : s = stripHash s \/ s = String "#" (stripHash s).
Proof.
  destruct s as [|c rest]; simpl; [now left|].
  destruct (Ascii.eqb c "#") eqn:E; [right|now left].
  apply Ascii.eqb_eq in E. now subst.
Qed.

Lemma stripHash_hex c rest :
  isHexDigit c = true -> stripHash (String c rest) = String c rest.
Proof. intros Hc. simpl. now rewrite (hexDigit_not_hash c Hc). Qed.

Lemma stripHash_hash rest : stripHash (String "#" rest) = rest.
Proof. reflexivity. Qed.

Lemma matchShorthand_hex s c1 c2 c3 :
  matchShorthand s = Some (c1, c2, c3) -> isHexColor 3 s.
Proof.
  unfold matchShorthand. intros Hm.
  destruct (stripHash s) as [|a [|b0 [|c [|? ?]]]] eqn:Es; try discriminate.
  destruct (isHexDigit a) eqn:Ha, (isHexDigit b0) eqn:Hb, (isHexDigit c) eqn:Hc;
    simpl in Hm; try discriminate.
  exists (String a (String b0 (String c EmptyString))). split.
  - split; [reflexivity|]. simpl. repeat constructor; assumption.
  - rewrite <- Es. apply stripHash_cases.
Qed.

Lemma matchFull_hex s groups : matchFull s = Some groups -> isHexColor 6 s.
Proof.
  unfold matchFull. intros Hm.
  destruct (stripHash s) as [|a1 [|a2 [|a3 [|a4 [|a5 [|a6 [|? ?]]]]]]] eqn:Es;
    try discriminate.
  destruct (isHexDigit a1) eqn:H1, (isHexDigit a2) eqn:H2, (isHexDigit a3) eqn:H3,
           (isHexDigit a4) eqn:H4, (isHexDigit a5) eqn:H5, (isHexDigit a6) eqn:H6;
    simpl in Hm; try discriminate.
  exists (String a1 (String a2 (String a3 (String a4 (String a5 (String a6 EmptyString)))))).
  split.
  - split; [reflexivity|]. simpl. repeat constructor; assumption.
  - rewrite <- Es. apply stripHash_cases.
Qed.

Lemma convertHexToRgb_short c1 c2 c3 (prefixed : bool) :
  isHexDigit c1 = true -> isHexDigit c2 = true -> isHexDigit c3 = true ->
  convertHexToRgb
    ((if prefixed then "#" else "") ++ String c1 (String c2 (String c3 EmptyString)))%string
  = rgb (parseInt16 (doubled c1)) (parseInt16 (doubled c2)) (parseInt16 (doubled c3)).
Proof.
  intros H1 H2 H3.
  assert (Hs : matchShorthand
                 ((if prefixed then "#" else "") ++ String c1 (String c2 (String c3 EmptyString)))%string
               = Some (c1, c2, c3)).
  { unfold matchShorthand. destruct prefixed.
    - change ("#" ++ ?x)%string with (String "#" x). rewrite stripHash_hash.
      now rewrite H1, H2, H3.
    - change ("" ++ ?x)%string with x. rewrite (stripHash_hex _ _ H1).
      now rewrite H1, H2, H3. }
  unfold convertHexToRgb, expandShorthand. rewrite Hs.
  unfold matchFull. rewrite (stripHash_hex _ _ H1).
  now rewrite H1, H2, H3.
Qed.

(** C8. convertHexToRgb is a total function on strings. A colour of three
    hex digits, with or without [#], is parsed as if every digit were written
    twice; ["#0AF"] gives r 0, g 170, b 255; a string that is neither a
    3-digit nor a 6-digit hex colour (as ["notacolor"]) gives r 0, g 0, b 0. *)
Theorem convertHexToRgb_total_spec :
  (forall c1 c2 c3 (prefixed : bool),
      isHexDigit c1 = true -> isHexDigit c2 = true -> isHexDigit c3 = true ->
      convertHexToRgb
        ((if prefixed then "#" else "") ++ String c1 (String c2 (String c3 EmptyString)))%string
      = rgb (parseInt16 (doubled c1)) (parseInt16 (doubled c2)) (parseInt16 (doubled c3)))
  /\ expandShorthand "#0AF" = "00AAFF"
  /\ convertHexToRgb "#0AF" = rgb 0 170 255
  /\ convertHexToRgb "notacolor" = rgb 0 0 0
  /\ (forall s, ~ isHexColor 3 s -> ~ isHexColor 6 s -> convertHexToRgb s = rgb 0 0 0).
Proof.
  split; [exact convertHexToRgb_short|].
  split; [reflexivity|]. split; [reflexivity|]. split; [reflexivity|].
  intros s H3 H6. unfold convertHexToRgb, expandShorthand.
  destruct (matchShorthand s) as [[[c1 c2] c3]|] eqn:Es.
  - exfalso. apply H3. eapply matchShorthand_hex; eassumption.
  - destruct (matchFull s) as [[[g1 g2] g3]|] eqn:Ef; [|reflexivity].
    exfalso. apply H6. eapply matchFull_hex; eassumption.
Qed.

Lemma notacolor_not_hex n : n = 3%nat \/ n = 6%nat -> ~ isHexColor n "notacolor".
Proof.
  intros Hn (digits & (Hlen & _) & [E | E]); [|discriminate].
  subst digits. simpl in Hlen. destruct Hn; subst; discriminate.
Qed.

Lemma convertHexToRgb_total_spec_witness :
  convertHexToRgb ("#" ++ "fa0")%string = rgb 255 170 0
  /\ convertHexToRgb "notacolor" = rgb 0 0 0.
Proof.
  split.
  - exact (proj1 convertHexToRgb_total_spec "f"%char "a"%char "0"%char true
             eq_refl eq_refl eq_refl).
  - apply (proj2 (proj2 (proj2 (proj2 convertHexToRgb_total_spec)))).
    + apply notacolor_not_hex. now left.
    + apply notacolor_not_hex. now right.
Defined.

(** ** The fingerprint *)

(** C2. generateImageId depends on the request only through bucket, key,
    the serialized edits and outputFormat: two requests that agree on these
    four get the same image id, whatever their other fields hold. *)
Theorem generateImageId_deterministic `{Runtime} (info1 info2 : ImageRequestInfo) :
  bucket info1 = bucket info2 ->
  key info1 = key info2 ->
  editString (edits info1) = editString (edits info2) ->
  outputFormat info1 = outputFormat info2 ->
  generateImageId info1 = generateImageId info2.
Proof.
  intros Hb Hk He Ho. unfold generateImageId, requestString.
  now rewrite Hb, Hk, He, Ho.
Qed.

Lemma generateImageId_deterministic_witness :
  let info1 := exampleRequest (bufferFrom "first image") in
  let info2 :=
    mkRequest "Custom" "photos" "cats/tom.png" None (bufferFrom "another image")
      (Some [("X-Trace", JStr "on")]) (Some "image/png") (Some (Some "png")) None
      (Some "max-age=60") None None (Some 4) (Some 60) in
  originalImage info1 <> originalImage info2
  /\ @generateImageId exampleRuntime info1 = @generateImageId exampleRuntime info2.
Proof.
  split; [discriminate|].
  apply (@generateImageId_deterministic exampleRuntime); reflexivity.
Defined.

(** ** The edit pipeline *)

Lemma getProp_perm (e1 e2 : JsObject) :
  e1 ≡ₚ e2 -> NoDup (map fst e1) -> forall k, getProp k e1 = getProp k e2.
Proof.
  induction 1 as [|[kx vx] l l' Hp IH|[kx vx] [ky vy] l|l l' l'' Hp1 IH1 Hp2 IH2];
    intros Hnd k; simpl in *.
  - reflexivity.
  - destruct (String.eqb k kx); [reflexivity|].
    apply IH. now apply NoDup_cons in Hnd as [_ Hnd].
  - destruct (String.eqb k ky) eqn:Ey, (String.eqb k kx) eqn:Ex; try reflexivity.
    apply String.eqb_eq in Ey, Ex. subst.
    apply NoDup_cons in Hnd as [Hnotin _]. exfalso. apply Hnotin. now left.
  - rewrite IH1 by assumption. apply IH2.
    now rewrite <- (Permutation_map fst Hp1).
Qed.

Section PipelineFacts.
Context `{Runtime}.

(** Every statement of applyEdits reads the edit bag through property
    lookups only. *)
Lemma step_ext (s : Step) (e1 e2 : JsObject) :
  In s editSteps ->
  (forall k, getProp k e1 = getProp k e2) ->
  forall p, s e1 p = s e2 p.
Proof.
  intros Hin Hg p. simpl in Hin.
  repeat (destruct Hin as [<- | Hin]); [..|contradiction];
    unfold stepResize, stepGrayscale, stepFlip, stepFlop, stepRotate, stepBackground,
      stepFlatten, stepRgb, stepNormalize, stepThreshold, stepSharpen, stepBlur,
      stepExtend, stepWatermark, stepFormat;
    rewrite !Hg; reflexivity.
Qed.

Lemma runSteps_ext (steps : list Step) (e1 e2 : JsObject) :
  (forall s, In s steps -> forall p, s e1 p = s e2 p) ->
  forall p, runSteps steps e1 p = runSteps steps e2 p.
Proof.
  induction steps as [|s rest IH]; intros Hs p; simpl; [reflexivity|].
  rewrite (Hs s) by now left.
  destruct (s e2 p) as [p'|err]; simpl; [|reflexivity].
  apply IH. intros s' Hin. apply Hs. now right.
Qed.

Lemma applyEdits_perm original (e1 e2 : JsObject) :
  NoDup (map fst e1) -> e1 ≡ₚ e2 -> applyEdits original e1 = applyEdits original e2.
Proof.
  intros Hnd Hp. unfold applyEdits, buildPipeline.
  rewrite (runSteps_ext editSteps e1 e2); [reflexivity|].
  intros s Hin p. apply step_ext; [exact Hin|].
  now apply getProp_perm.
Qed.

End PipelineFacts.

Section StageFacts.
Context `{Runtime}.

Ltac stage_cases :=
  unfold mbind, Completion_bind, cbind;
  repeat match goal with
    | |- context [if ?c then _ else _] => destruct c
    | |- context [match ?c with Normal _ => _ | Throw _ => _ end] => destruct c
    end; reflexivity.

Lemma performs_resize : performs SResize stepResize.
Proof. intros e p. unfold stepResize, requested, stageOp. stage_cases. Qed.

Lemma performs_grayscale : performs SGrayscale stepGrayscale.
Proof. intros e p. unfold stepGrayscale, requested, stageOp. stage_cases. Qed.

Lemma performs_flip : performs SFlip stepFlip.
Proof. intros e p. unfold stepFlip, requested, stageOp. stage_cases. Qed.

Lemma performs_flop : performs SFlop stepFlop.
Proof. intros e p. unfold stepFlop, requested, stageOp. stage_cases. Qed.

Lemma performs_rotate : performs SRotate stepRotate.
Proof.
  intros e p. unfold stepRotate, requested, stageOp.
  destruct (getProp "rotate" e); stage_cases.
Qed.

Lemma performs_background : performs SBackgroundFlatten stepBackground.
Proof. intros e p. unfold stepBackground, requested, stageOp. stage_cases. Qed.

Lemma performs_flatten : performs SFlatten stepFlatten.
Proof. intros e p. unfold stepFlatten, requested, stageOp. stage_cases. Qed.

Lemma performs_rgb : performs SRgb stepRgb.
Proof. intros e p. unfold stepRgb, requested, stageOp. stage_cases. Qed.

Lemma performs_normalize : performs SNormalize stepNormalize.
Proof. intros e p. unfold stepNormalize, requested, stageOp. stage_cases. Qed.

Lemma performs_threshold : performs SThreshold stepThreshold.
Proof. intros e p. unfold stepThreshold, requested, stageOp. stage_cases. Qed.

Lemma performs_sharpen : performs SSharpen stepSharpen.
Proof. intros e p. unfold stepSharpen, requested, stageOp. stage_cases. Qed.

Lemma performs_blur : performs SBlur stepBlur.
Proof. intros e p. unfold stepBlur, requested, stageOp. stage_cases. Qed.

Lemma performs_extend : performs SExtend stepExtend.
Proof. intros e p. unfold stepExtend, requested, stageOp. stage_cases. Qed.

(** The first thirteen statements are the thirteen stages, in order. *)
Lemma performs_all : Forall2 performs stagesInOrder (firstn 13 editSteps).
Proof.
  unfold stagesInOrder, editSteps. simpl.
  repeat first
    [ apply List.Forall2_nil
    | apply List.Forall2_cons;
      [ first [ exact performs_resize | exact performs_grayscale | exact performs_flip
              | exact performs_flop | exact performs_rotate | exact performs_background
              | exact performs_flatten | exact performs_rgb | exact performs_normalize
              | exact performs_threshold | exact performs_sharpen | exact performs_blur
              | exact performs_extend ] | ] ].
Qed.

Lemma runSteps_stages (stages : list Stage) (steps : list Step) (e : JsObject) :
  Forall2 performs stages steps ->
  forall p,
    runSteps steps e p =
      (staged ← collect (map (stageOp e) (List.filter (requested e) stages));
       Normal (fold_left enqueue staged p)).
Proof.
  induction 1 as [|stage s stages' steps' Hs _ IH]; intros p; simpl; [reflexivity|].
  rewrite (Hs e p). destruct (requested e stage); simpl.
  - unfold mbind, Completion_bind, cbind in *.
    destruct (stageOp e stage) as [op|err]; [|reflexivity].
    rewrite IH. now destruct (collect _).
  - apply IH.
Qed.

Lemma fold_enqueue (l : list SharpOp) : forall p,
  fold_left enqueue l p
  = mkPipeline (mkSharp (input (image p)) (failOn (image p)) (ops (image p) ++ l))
               (applied p ++ l).
Proof.
  induction l as [|op l IH]; intros [[i f o] a]; simpl.
  - now rewrite !app_nil_r.
  - rewrite IH. simpl. now rewrite <- !app_assoc.
Qed.

Lemma stepWatermark_run (e : JsObject) (p : Pipeline) :
  stepWatermark e p =
    if truthy (getProp "watermark" e) then
      overlaid ← watermarkOver e (image p);
      Normal (mkPipeline overlaid (applied p ++ ops overlaid))
    else Normal p.
Proof.
  unfold stepWatermark, watermarkOver.
  destruct (truthy (getProp "watermark" e)); [|reflexivity].
  destruct (withDefault (member (getProp "watermark" e) "position") (JStr "center"));
    try reflexivity.
  unfold mbind, Completion_bind, cbind.
  destruct (sharp_metadata (image p)) as [m|err]; [|reflexivity].
  unfold queue, SharpDefault. simpl.
  destruct (sharp_toBuffer _) as [layer|err]; [|reflexivity].
  now destruct (sharp_toBuffer (image p)).
Qed.

Lemma stepFormat_run (e : JsObject) (p : Pipeline) :
  stepFormat e p = Normal (fold_left enqueue (formatBlock e) p).
Proof.
  unfold stepFormat, formatBlock, firstFormatKey. simpl.
  repeat match goal with
    | |- context [if ?c then _ else _] => destruct c
    end; reflexivity.
Qed.

Lemma runSteps_split (steps1 steps2 : list Step) e p :
  runSteps (steps1 ++ steps2) e p = (q ← runSteps steps1 e p; runSteps steps2 e q).
Proof.
  revert p. induction steps1 as [|s rest IH]; intros p; simpl; [reflexivity|].
  unfold mbind, Completion_bind, cbind in *. destruct (s e p); [apply IH|reflexivity].
Qed.

(** buildPipeline, statement by statement. *)
Lemma buildPipeline_run original e :
  buildPipeline original e =
    (staged ← stageOps e;
     let q := mkPipeline (mkSharp original (Some "none") staged) staged in
     q' ← (if truthy (getProp "watermark" e) then
             overlaid ← watermarkOver e (image q);
             Normal (mkPipeline overlaid (applied q ++ ops overlaid))
           else Normal q);
     Normal (fold_left enqueue (formatBlock e) q')).
Proof.
  unfold buildPipeline.
  change editSteps with (firstn 13 editSteps ++ [stepWatermark; stepFormat]).
  rewrite runSteps_split, (runSteps_stages _ _ e performs_all). fold (stageOps e).
  unfold mbind, Completion_bind, cbind.
  destruct (stageOps e) as [staged|err]; [|reflexivity].
  rewrite fold_enqueue. cbn [runSteps image applied input failOn ops SharpLenient app].
  unfold mbind, Completion_bind, cbind. rewrite stepWatermark_run.
  destruct (truthy (getProp "watermark" e)).
  - unfold mbind, Completion_bind, cbind. cbn [image applied].
    destruct (watermarkOver e _) as [overlaid|err]; [|reflexivity].
    rewrite stepFormat_run. reflexivity.
  - rewrite stepFormat_run. reflexivity.
Qed.

Lemma buildPipeline_image original e :
  (p ← buildPipeline original e; Normal (image p)) = pipelineInOrder original e.
Proof.
  rewrite buildPipeline_run. unfold pipelineInOrder, mbind, Completion_bind, cbind.
  destruct (stageOps e) as [staged|err]; [|reflexivity]. simpl.
  destruct (truthy (getProp "watermark" e)).
  - destruct (watermarkOver e _) as [overlaid|err]; [|reflexivity].
    now rewrite fold_enqueue.
  - now rewrite fold_enqueue.
Qed.

Lemma applyEdits_run original e :
  applyEdits original e
  = rethrowAs ImageEditsError (engine ← pipelineInOrder original e; sharp_toBuffer engine).
Proof.
  unfold applyEdits. rewrite <- buildPipeline_image.
  unfold mbind, Completion_bind, cbind. now destruct (buildPipeline original e).
Qed.

End StageFacts.

(** C4. applyEdits hands the engine the operations of the requested
    stages in the fixed sequence resize, grayscale, flip, flop, rotate,
    flatten from [background], flatten, rgb modulation (left out when every
    channel is zero), normalize, threshold, sharpen, blur, extend, then the
    watermark, then the one format block of the first set key among jpeg,
    png, webp, tiff, gif, avif; the operations it logs are the operations it
    queues. Hence the result does not depend on the insertion order of the
    keys of the edit set. *)
Theorem applyEdits_fixed_order `{Runtime} :
  (forall (original : Buffer) (e : JsObject),
      (p ← buildPipeline original e; Normal (image p)) = pipelineInOrder original e
      /\ applyEdits original e
         = rethrowAs ImageEditsError
             (engine ← pipelineInOrder original e; sharp_toBuffer engine))
  /\ (forall (original : Buffer) (e : JsObject) (p : Pipeline),
        buildPipeline original e = Normal p ->
        exists staged overlay,
          stageOps e = Normal staged
          /\ applied p = staged ++ overlay ++ formatBlock e
          /\ (truthy (getProp "watermark" e) = false ->
              overlay = []
              /\ image p = mkSharp original (Some "none") (staged ++ formatBlock e)))
  /\ (forall (original : Buffer) (e1 e2 : JsObject),
        NoDup (map fst e1) -> e1 ≡ₚ e2 ->
        applyEdits original e1 = applyEdits original e2).
Proof.
  split; [|split].
  - intros original e. split; [apply buildPipeline_image|apply applyEdits_run].
  - intros original e p. rewrite buildPipeline_run.
    unfold mbind, Completion_bind, cbind.
    destruct (stageOps e) as [staged|err]; [|discriminate]. cbn [image applied].
    destruct (truthy (getProp "watermark" e)).
    + destruct (watermarkOver e _) as [overlaid|err]; [|discriminate].
      rewrite fold_enqueue. intros [= <-]. exists staged, (ops overlaid).
      split; [reflexivity|]. split; [simpl; now rewrite app_assoc|discriminate].
    + rewrite fold_enqueue. intros [= <-]. exists staged, [].
      split; [reflexivity|]. split; [reflexivity|]. intros _. split; reflexivity.
  - intros original e1 e2. apply applyEdits_perm.
Qed.

Lemma applyEdits_fixed_order_witness :
  let e1 := [("flip", JBool true); ("rotate", JNum 90); ("grayscale", JBool true)] in
  let e2 := [("grayscale", JBool true); ("flip", JBool true); ("rotate", JNum 90)] in
  let e3 := [("flatten", JObj [("background", JStr "#ff0000")]);
             ("background", JStr "#00ff00"); ("png", JObj []); ("jpeg", JObj [])] in
  let original := bufferFrom "pixels" in
  @applyEdits exampleRuntime original e1 = @applyEdits exampleRuntime original e2
  /\ @applyEdits exampleRuntime original e1
     = rethrowAs ImageEditsError
         (@sharp_toBuffer exampleRuntime
            (mkSharp original (Some "none")
               [OpGrayscale; OpFlip; OpRotate (JNum 90) transparentBlack]))
  /\ @applyEdits exampleRuntime original e3
     = rethrowAs ImageEditsError
         (@sharp_toBuffer exampleRuntime
            (mkSharp original (Some "none")
               [OpFlatten (rgb 0 255 0); OpFlatten (rgb 255 0 0);
                OpFormat JPEG (Some (JObj []))])).
Proof.
  intros e1 e2 e3 original.
  destruct (@applyEdits_fixed_order exampleRuntime) as (Hexact & _ & Hperm).
  split; [|split].
  - apply Hperm.
    + apply (bool_decide_unpack _). vm_compute. reflexivity.
    + symmetry. apply (Permutation_cons_append [("flip", JBool true); ("rotate", JNum 90)]).
  - rewrite (proj2 (Hexact original e1)). reflexivity.
  - rewrite (proj2 (Hexact original e3)). reflexivity.
Defined.

(** ** Reasoning about effectful code *)

Lemma external_run {A} (c : Call) (perform : M A) (w : World) :
  external c perform w =
    match outcomes w with
    | Some e :: rest => (Throw e, setOutcomes rest (record c w))
    | None :: rest => perform (setOutcomes rest (record c w))
    | [] => perform (record c w)
    end.
Proof. reflexivity. Qed.

Lemma bind_run {A B} (m : M A) (f : A -> M B) (w : World) :
  (m ≫= f) w =
    match m w with
    | (Normal a, w') => f a w'
    | (Throw e, w') => (Throw e, w')
    end.
Proof. reflexivity. Qed.

Lemma tryCatch_run {A} (body : M A) (handler : JsError -> M A) (w : World) :
  tryCatch body handler w =
    match body w with
    | (Normal a, w') => (Normal a, w')
    | (Throw e, w') => handler e w'
    end.
Proof. reflexivity. Qed.

Lemma traceExtends_same allowed w w' : calls w' = calls w -> traceExtends allowed w w'.
Proof. intros E. exists []. split; [now rewrite app_nil_r | reflexivity]. Qed.

Lemma traceExtends_refl allowed w : traceExtends allowed w w.
Proof. now apply traceExtends_same. Qed.

Lemma traceExtends_trans allowed w1 w2 w3 :
  traceExtends allowed w1 w2 -> traceExtends allowed w2 w3 -> traceExtends allowed w1 w3.
Proof.
  intros (l1 & H1 & A1) (l2 & H2 & A2). exists (l1 ++ l2). split.
  - now rewrite H2, H1, app_assoc.
  - rewrite forallb_app. now rewrite A1, A2.
Qed.

Lemma traceExtends_record allowed c w :
  allowed c = true -> traceExtends allowed w (record c w).
Proof. intros Hc. exists [c]. split; [reflexivity | simpl; now rewrite Hc]. Qed.

Section Respects.
Variable R : World -> World -> Prop.
Hypothesis R_refl : forall w, R w w.
Hypothesis R_trans : forall w1 w2 w3, R w1 w2 -> R w2 w3 -> R w1 w3.

Lemma respects_ret {A} (a : A) : respects R (ret a).
Proof. intros w. apply R_refl. Qed.

Lemma respects_throw {A} (e : JsError) : respects R (@throw A e).
Proof. intros w. apply R_refl. Qed.

Lemma respects_lift {A} (c : Completion A) : respects R (lift c).
Proof. intros w. apply R_refl. Qed.

Lemma respects_getNow : respects R getNow.
Proof. intros w. apply R_refl. Qed.

Lemma respects_bind {A B} (m : M A) (f : A -> M B) :
  respects R m -> (forall a, respects R (f a)) -> respects R (m ≫= f).
Proof.
  intros Hm Hf w. rewrite bind_run. specialize (Hm w).
  destruct (m w) as [[a|e] w']; simpl in *; [|exact Hm].
  eapply R_trans; [exact Hm | apply Hf].
Qed.

Lemma respects_tryCatch {A} (body : M A) (handler : JsError -> M A) :
  respects R body -> (forall e, respects R (handler e)) -> respects R (tryCatch body handler).
Proof.
  intros Hb Hh w. rewrite tryCatch_run. specialize (Hb w).
  destruct (body w) as [[a|e] w']; simpl in *; [exact Hb|].
  eapply R_trans; [exact Hb | apply Hh].
Qed.

Lemma respects_external {A} (c : Call) (perform : M A) :
  (forall w, R w (record c w)) ->
  (forall o w, R w (setOutcomes o w)) ->
  respects R perform -> respects R (external c perform).
Proof.
  intros Hc Ho Hp w. rewrite external_run.
  destruct (outcomes w) as [|[e|] rest]; simpl.
  - eapply R_trans; [apply Hc | apply Hp].
  - eapply R_trans; [apply Hc | apply Ho].
  - eapply R_trans; [apply Hc |]. eapply R_trans; [apply Ho | apply Hp].
Qed.


End Respects.






Section ProcessFacts.
Context `{Runtime}.
Variable env : Env.






Lemma traceExtends_outcomes allowed o w : traceExtends allowed w (setOutcomes o w).
Proof. now apply traceExtends_same. Qed.

Ltac traced :=
  repeat first
    [ apply respects_ret; apply traceExtends_refl
    | apply respects_throw; apply traceExtends_refl
    | apply respects_lift; apply traceExtends_refl
    | apply respects_getNow; apply traceExtends_refl
    | apply respects_bind; [apply traceExtends_trans | | intros ?]
    | apply respects_tryCatch; [apply traceExtends_trans | | intros ?]
    | apply respects_external;
      [ apply traceExtends_trans
      | intros ?; apply traceExtends_record; reflexivity
      | intros ? ?; apply traceExtends_outcomes
      | ]
    | match goal with
      | |- respects _ (match ?x with _ => _ end) => destruct x
      | |- respects _ (fun w => match ?x with _ => _ end) =>
          let w' := fresh "w" in
          intros w'; simpl; destruct (objects w' !! _); apply traceExtends_refl
      | |- respects _ (fun w => (_, setMetadataItems _ _)) =>
          intros ?; simpl; now apply traceExtends_same
      | |- respects _ (fun w => (_, setObjects _ _)) =>
          intros ?; simpl; now apply traceExtends_same
      | |- respects _ (fun w => (_, w)) => intros ?; apply traceExtends_refl
      end ].

(** The cache lookup never enters the edit pipeline. *)
Lemma lookupCache_no_pipeline imageId :
  respects (traceExtends (fun c => negb (isPipelineCall c))) (lookupCache env imageId).
Proof.
  unfold lookupCache, doesProcessedImageExist, updateAccessStats, getImageMetadata,
    updateImageMetadata, headObject, getObject.
  traced.
Qed.

(** storeProcessedImage is entered, and what follows only adds calls. *)
Lemma storeProcessedImage_entered key contentType buffer metadata w :
  In (EnterStoreProcessedImage key)
     (calls (snd (storeProcessedImage env key contentType buffer metadata w))).
Proof.
  assert (Hrest : forall m : M unit,
             respects (traceExtends (fun _ => true)) m ->
             In (EnterStoreProcessedImage key)
                (calls (snd ((enter (EnterStoreProcessedImage key) ≫= fun _ => m) w)))).
  { intros m Hm. rewrite bind_run. unfold enter.
    destruct (Hm (record (EnterStoreProcessedImage key) w)) as (extra & -> & _).
    simpl. apply in_or_app. left. apply in_or_app. right. now left. }
  unfold storeProcessedImage. apply Hrest.
  unfold storeImageMetadata, upload. traced.
Qed.

Lemma storeFormatted_entered info target formatted m w :
  isCacheEnabled env = true ->
  sharp_metadata (SharpDefault formatted) = Normal m ->
  In (EnterStoreProcessedImage (generateImageId info))
     (calls (snd (storeFormatted env info target formatted w))).
Proof.
  intros Hon Hm. unfold storeFormatted. rewrite Hon, tryCatch_run, bind_run.
  unfold lift. rewrite Hm.
  pose proof (storeProcessedImage_entered (generateImageId info) (outputContentTypeOf target)
                formatted
                (Some (Db.mkImageMetadata (Some (generateImageId info))
                         (Some (envOr env "OUTPUT_BUCKET_NAME" ""))
                         (Some (generateImageId info)) (Some target) (width m) (height m)
                         (Some (Z.of_nat (length formatted))) (Some (outputContentTypeOf target))
                         None None (Some "processed") None (edits info) None None)) w) as Hin.
  destruct (storeProcessedImage env _ _ _ _ w) as [[[]|e] w']; exact Hin.
Qed.

Lemma doesProcessedImageExist_readonly key w :
  sameStores w (snd (doesProcessedImageExist env key w))
  /\ calls (snd (doesProcessedImageExist env key w))
     = calls w ++ [CallHeadObject (getOutputBucket env) key].
Proof.
  unfold doesProcessedImageExist, headObject, sameStores, ret, throw.
  rewrite tryCatch_run, bind_run, external_run.
  destruct (outcomes w) as [|[e|] rest]; simpl;
    repeat case_match; simplify_eq; simpl; auto.
Qed.

Lemma getObject_stores bucket key w :
  sameStores w (snd (getObject bucket key w)).
Proof.
  unfold getObject, sameStores, ret, throw. rewrite external_run.
  destruct (outcomes w) as [|[e|] rest]; simpl;
    repeat case_match; simplify_eq; simpl; auto.
Qed.

Lemma nextAccessCount_spec existing :
  nextAccessCount existing = default 0 (Db.accessCount existing) + 1.
Proof.
  unfold nextAccessCount. destruct (Db.accessCount existing) as [n|]; simpl; [|reflexivity].
  destruct (Z.eqb_spec n 0); subst; reflexivity.
Qed.

Lemma updateAccessStats_normal key w : fst (updateAccessStats env key w) = Normal tt.
Proof.
  unfold updateAccessStats. rewrite tryCatch_run.
  match goal with |- context [match ?m with _ => _ end] => destruct m as [[[]|e] w'] end;
    reflexivity.
Qed.

Lemma updateAccessStats_effect key w :
  let table := getMetadataTable env in
  let w' := snd (updateAccessStats env key w) in
  objects w' = objects w
  /\ (forall existing,
        metadataItems w !! (table, key) = Some existing ->
        accepted 0 w = true -> accepted 1 w = true ->
        Db.accessCount <$> (metadataItems w' !! (table, key))
          = Some (Some (default 0 (Db.accessCount existing) + 1))
        /\ forall other, other <> (table, key) ->
             metadataItems w' !! other = metadataItems w !! other)
  /\ (metadataItems w !! (table, key) = None \/ accepted 0 w = false \/ accepted 1 w = false ->
      metadataItems w' = metadataItems w).
Proof.
  unfold updateAccessStats, getImageMetadata, updateImageMetadata, accepted.
  unfold mbind, M_bind, bind, tryCatch, external, getNow, ret, throw. simpl.
  assert (Hins : forall (items : Store Db.ImageMetadata) k m v,
             Db.accessCount v = Some (nextAccessCount m) ->
             Db.accessCount <$> (<[k:=v]> items !! k)
               = Some (Some (default 0 (Db.accessCount m) + 1))
             /\ forall other, other <> k -> <[k:=v]> items !! other = items !! other).
  { intros items k m v Hv. split.
    - rewrite store_lookup_insert_eq. simpl. now rewrite Hv, nextAccessCount_spec.
    - intros other Hne. now rewrite store_lookup_insert_ne. }
  destruct (outcomes w) as [|[e0|] [|[e1|] rest]] eqn:Eo; simpl;
    destruct (metadataItems w !! (getMetadataTable env, key)) as [m|] eqn:Em; simpl;
    rewrite ?Eo; simpl; rewrite ?Em; simpl;
    (split; [reflexivity|]); split;
    try (intros existing [= <-] Ha0 Ha1; try discriminate; apply Hins; simpl;
         destruct (Db.accessCount m); reflexivity);
    try (intros existing Hex; discriminate Hex);
    try (intros [Hn|[Hn|Hn]]; try discriminate; reflexivity);
    try reflexivity.
Qed.










End ProcessFacts.

(** ** ImageHandler.process *)

Lemma lookupCache_hit `{Runtime} env imageId w w1 obj w3 :
  doesProcessedImageExist env imageId w = (Normal true, w1) ->
  getObject (envOr env "OUTPUT_BUCKET_NAME" "") imageId
    (snd (updateAccessStats env imageId w1)) = (Normal obj, w3) ->
  lookupCache env imageId w = (Normal (Some (S3.Body obj)), w3).
Proof.
  intros Hexists Hget. unfold lookupCache.
  rewrite tryCatch_run, bind_run, Hexists, bind_run.
  pose proof (updateAccessStats_normal env imageId w1) as Hn.
  destruct (updateAccessStats env imageId w1) as [[[]|e] w2]; simpl in *; [|discriminate].
  rewrite bind_run, Hget. reflexivity.
Qed.

Lemma lookupCache_miss `{Runtime} env imageId w :
  fst (doesProcessedImageExist env imageId w) <> Normal true ->
  lookupCache env imageId w = (Normal None, snd (doesProcessedImageExist env imageId w)).
Proof.
  intros Hmiss. unfold lookupCache. rewrite tryCatch_run, bind_run.
  destruct (doesProcessedImageExist env imageId w) as [[[|]|e] w1]; simpl in *;
    [contradiction|reflexivity|reflexivity].
Qed.

(** C1, as amended. When the artifact of the fingerprint exists and the
    cached object is fetched, process returns the cached bytes and enters
    neither applyEdits nor applyFormatting. The access count of the
    fingerprint goes up by exactly 1 when its metadata record exists and the
    read and the update of the record both go through; when the record is
    missing or either call is rejected the metadata items are left as they
    were, and the cached bytes are returned all the same. *)
Theorem process_cache_hit_returns_cached `{Runtime} (env : Env)
    (info : ImageRequestInfo) (w w1 w3 : World) (obj : S3.Object) :
  let imageId := generateImageId info in
  let item := (getMetadataTable env, imageId) in
  doesProcessedImageExist env imageId w = (Normal true, w1) ->
  getObject (envOr env "OUTPUT_BUCKET_NAME" "") imageId
    (snd (updateAccessStats env imageId w1)) = (Normal obj, w3) ->
  process env info w = (Normal (S3.Body obj), w3)
  /\ traceExtends (fun c => negb (isPipelineCall c)) w w3
  /\ (forall existing,
        metadataItems w1 !! item = Some existing ->
        accepted 0 w1 = true -> accepted 1 w1 = true ->
        Db.accessCount <$> (metadataItems w3 !! item)
          = Some (Some (default 0 (Db.accessCount existing) + 1)))
  /\ (metadataItems w1 !! item = None \/ accepted 0 w1 = false \/ accepted 1 w1 = false ->
      metadataItems w3 = metadataItems w1).
Proof.
  intros imageId item Hexists Hget.
  pose proof (lookupCache_hit env imageId w w1 obj w3 Hexists Hget) as Hhit.
  assert (Hmeta : metadataItems w3 = metadataItems (snd (updateAccessStats env imageId w1))).
  { pose proof (getObject_stores (envOr env "OUTPUT_BUCKET_NAME" "") imageId
                  (snd (updateAccessStats env imageId w1))) as (_ & Hm & _).
    now rewrite Hget in Hm. }
  destruct (updateAccessStats_effect env imageId w1) as (_ & Hinc & Hkeep).
  split; [|split; [|split]].
  - unfold process. fold imageId. now rewrite bind_run, Hhit.
  - pose proof (lookupCache_no_pipeline env imageId w) as Ht. now rewrite Hhit in Ht.
  - intros existing Hex Ha0 Ha1. rewrite Hmeta. now apply (Hinc existing Hex Ha0 Ha1).
  - intros Hcase. rewrite Hmeta. now apply Hkeep.
Qed.

Lemma process_cache_hit_returns_cached_witness :
  fst (@process exampleRuntime cacheEnv hitRequest (hitWorld [])) = Normal (bufferFrom "cached bytes")
  /\ Db.accessCount <$>
       (metadataItems (snd (@process exampleRuntime cacheEnv hitRequest (hitWorld [])))
          !! ("meta", hitId)) = Some (Some 6).
Proof.
  pose (w1 := snd (doesProcessedImageExist cacheEnv hitId (hitWorld []))).
  pose (w3 := snd (getObject "out" hitId (snd (@updateAccessStats exampleRuntime cacheEnv hitId w1)))).
  destruct (@process_cache_hit_returns_cached exampleRuntime cacheEnv hitRequest (hitWorld [])
              w1 w3 cachedObject) as (Hp & _ & Hinc & _).
  - vm_compute. reflexivity.
  - vm_compute. reflexivity.
  - split; [now rewrite Hp|].
    assert (Hcount := Hinc (countedItem 5)).
    vm_compute in Hcount |- *. now apply Hcount.
Defined.

(** C1 as stated fails: the artifact exists, its item counts five reads, the
    read of the item is rejected, and process returns the cached bytes while
    the count stays at five. *)
Lemma process_cache_hit_counterexample :
  let w := hitWorld [None; Some throttled] in
  fst (doesProcessedImageExist cacheEnv hitId w) = Normal true
  /\ fst (@process exampleRuntime cacheEnv hitRequest w) = Normal (bufferFrom "cached bytes")
  /\ Db.accessCount <$> (metadataItems w !! ("meta", hitId)) = Some (Some 5)
  /\ Db.accessCount <$>
       (metadataItems (snd (@process exampleRuntime cacheEnv hitRequest w)) !! ("meta", hitId))
     = Some (Some 5).
Proof. vm_compute. repeat split. Qed.

Lemma determineContentType_run `{Runtime} info ct w :
  probeContentType info = Normal ct ->
  determineContentType info w = (Normal ct, w).
Proof. intros Hp. unfold determineContentType, tryCatch, lift. now rewrite Hp. Qed.

(** C3. On a cache miss (the existence check does not answer true), a
    request whose determined source content type is none of jpeg, png, webp,
    tiff, gif, avif makes process throw ImageFormatNotSupported with status
    400; up to and including that rejection the only external call is the
    existence check, and neither object storage nor the metadata items
    change. *)
Theorem process_rejects_unsupported_source `{Runtime} (env : Env)
    (info : ImageRequestInfo) (w : World) (ct : option string) :
  fst (doesProcessedImageExist env (generateImageId info) w) <> Normal true ->
  probeContentType info = Normal ct ->
  formatsInclude ct = false ->
  exists w',
    process env info w = (Throw ImageFormatNotSupported, w')
    /\ code ImageFormatNotSupported = Some "ImageFormatNotSupported"
    /\ statusValue <$> status ImageFormatNotSupported = Some 400
    /\ sameStores w w'
    /\ calls w' = calls w ++ [CallHeadObject (getOutputBucket env) (generateImageId info)].
Proof.
  intros Hmiss Hprobe Hunsupported.
  exists (snd (doesProcessedImageExist env (generateImageId info) w)).
  destruct (doesProcessedImageExist_readonly env (generateImageId info) w) as [Hstores Hcalls].
  split; [|repeat split; try assumption; apply Hstores].
  unfold process. rewrite bind_run, (lookupCache_miss _ _ _ Hmiss).
  rewrite bind_run, (determineContentType_run _ _ _ Hprobe), bind_run.
  now rewrite Hunsupported.
Qed.

(** storeFormatted swallows every failure of the storage block. *)
Lemma storeFormatted_normal `{Runtime} env info outputFormat formatted w :
  fst (storeFormatted env info outputFormat formatted w) = Normal tt.
Proof.
  unfold storeFormatted. destruct (isCacheEnabled env); [|reflexivity].
  rewrite tryCatch_run.
  match goal with |- context [match ?m with _ => _ end] => destruct m as [[[]|e] w'] end;
    reflexivity.
Qed.

(** C7. With the cache enabled, once the output-format conversion has
    succeeded process returns the formatted bytes whatever happens while the
    artifact and its metadata record are stored: storeProcessedImage is
    entered (when the dimensions of the result can be read) and no failure
    of the storage block leaves process. *)
Theorem process_survives_storage_failure `{Runtime} (env : Env)
    (info : ImageRequestInfo) (w w1 : World) (ct : option string)
    (target : string) (modified formatted : Buffer) :
  isCacheEnabled env = true ->
  lookupCache env (generateImageId info) w = (Normal None, w1) ->
  probeContentType info = Normal ct ->
  formatsInclude ct = true ->
  editedOrSource info = Normal modified ->
  outputFormat info = Some target ->
  convertible (Some target) = true ->
  applyFormatting modified ct target = Normal formatted ->
  fst (process env info w) = Normal formatted
  /\ (forall w', fst (storeFormatted env info target formatted w') = Normal tt)
  /\ (forall m,
        sharp_metadata (SharpDefault formatted) = Normal m ->
        In (EnterStoreProcessedImage (generateImageId info))
           (calls (snd (process env info w)))).
Proof.
  intros Hon Hmiss Hprobe Hsupported Hedit Htarget Hconv Hformat.
  unfold convertible in Hconv. unfold editedOrSource in Hedit.
  split; [|split; [intros w'; apply storeFormatted_normal|]].
  - unfold process, mbind, M_bind, bind. rewrite Hmiss.
    rewrite (determineContentType_run _ _ _ Hprobe), Hsupported, Htarget, Hconv.
    destruct (edits info) as [e|]; unfold enter, lift, tryCatch, ret; simpl.
    + rewrite Hedit, Hformat.
      pose proof (storeFormatted_normal env info target formatted
                    (record EnterApplyFormatting (record EnterApplyEdits w1))) as Hs.
      destruct (storeFormatted env info target formatted _) as [[[]|err] w2];
        simpl in *; [reflexivity|discriminate].
    + injection Hedit as <-. rewrite Hformat.
      pose proof (storeFormatted_normal env info target formatted
                    (record EnterApplyFormatting w1)) as Hs.
      destruct (storeFormatted env info target formatted _) as [[[]|err] w2];
        simpl in *; [reflexivity|discriminate].
  - intros m Hm.
    unfold process, mbind, M_bind, bind. rewrite Hmiss.
    rewrite (determineContentType_run _ _ _ Hprobe), Hsupported, Htarget, Hconv.
    destruct (edits info) as [e|]; unfold enter, lift, tryCatch, ret; simpl.
    + rewrite Hedit, Hformat.
      pose proof (storeFormatted_entered env info target formatted m
                    (record EnterApplyFormatting (record EnterApplyEdits w1)) Hon Hm) as Hin.
      pose proof (storeFormatted_normal env info target formatted
                    (record EnterApplyFormatting (record EnterApplyEdits w1))) as Hs.
      destruct (storeFormatted env info target formatted _) as [[[]|err] w2];
        simpl in *; [exact Hin|discriminate].
    + injection Hedit as <-. rewrite Hformat.
      pose proof (storeFormatted_entered env info target formatted m
                    (record EnterApplyFormatting w1) Hon Hm) as Hin.
      pose proof (storeFormatted_normal env info target formatted
                    (record EnterApplyFormatting w1)) as Hs.
      destruct (storeFormatted env info target formatted _) as [[[]|err] w2];
        simpl in *; [exact Hin|discriminate].
Qed.

Lemma process_rejects_unsupported_source_witness :
  exists w',
    @process exampleRuntime cacheEnv bmpRequest emptyWorld = (Throw ImageFormatNotSupported, w')
    /\ objects w' = ∅ /\ metadataItems w' = ∅.
Proof.
  destruct (@process_rejects_unsupported_source exampleRuntime cacheEnv bmpRequest emptyWorld
              (Some "bmp")) as (w' & Hp & _ & _ & (Ho & Hm & _) & _).
  - vm_compute. discriminate.
  - reflexivity.
  - reflexivity.
  - exists w'. split; [exact Hp|]. split; [exact Ho|exact Hm].
Defined.

Lemma process_survives_storage_failure_witness :
  let w := mkWorld ∅ ∅ ∅ [None; Some throttled] [] 1000 "k3x9a1b2" false in
  fst (@process exampleRuntime cacheEnv pngRequest w) = Normal (bufferFrom "source bytes")
  /\ In (EnterStoreProcessedImage (@generateImageId exampleRuntime pngRequest))
        (calls (snd (@process exampleRuntime cacheEnv pngRequest w)))
  /\ objects (snd (@process exampleRuntime cacheEnv pngRequest w)) = ∅.
Proof.
  intros w. split; [|split].
  - eapply (@process_survives_storage_failure exampleRuntime cacheEnv pngRequest w _
              (Some "jpeg") "png" (bufferFrom "source bytes") (bufferFrom "source bytes"));
      reflexivity.
  - vm_compute. tauto.
  - vm_compute. reflexivity.
Defined.




(** ** The direct-proxy response *)

Lemma triples_ind (P : Buffer -> Prop) :
  P [] -> (forall a, P [a]) -> (forall a b, P [a; b]) ->
  (forall a b c rest, P rest -> P (a :: b :: c :: rest)) ->
  forall buf, P buf.
Proof.
  intros H0 H1 H2 H3.
  assert (Hall : forall buf, P buf /\ (forall a, P (a :: buf)) /\ (forall a b, P (a :: b :: buf))).
  { induction buf as [|c rest (IH0 & IH1 & IH2)]; [now auto|].
    split; [apply IH1|]. split; [intros a; apply IH2|].
    intros a b. now apply H3. }
  intros buf. apply Hall.
Qed.

Lemma toBase64_length (buf : Buffer) :
  Z.of_nat (String.length (toBase64 buf)) = 4 * ((Z.of_nat (length buf) + 2) / 3).
Proof.
  induction buf as [|a|a b|a b c rest IH] using triples_ind; try reflexivity.
  change (toBase64 (a :: b :: c :: rest))
    with (let '(s1, s2, s3, s4) := sextets a b c in
          String (base64Char s1) (String (base64Char s2)
            (String (base64Char s3) (String (base64Char s4) (toBase64 rest))))).
  unfold sextets. cbn [String.length length].
  rewrite !Nat2Z.inj_succ, IH.
  replace (Z.succ (Z.succ (Z.succ (Z.of_nat (length rest)))) + 2)
    with (Z.of_nat (length rest) + 2 + 1 * 3) by lia.
  rewrite Z.div_add by lia. lia.
Qed.

Lemma oversized_exceeds_limit :
  Z.of_nat (String.length (toBase64 oversized)) > LAMBDA_PAYLOAD_LIMIT.
Proof.
  rewrite toBase64_length. unfold oversized.
  rewrite repeat_length, Z2Nat.id by lia. reflexivity.
Qed.

Lemma process_passthrough (env : Env) (big : Buffer) (w : World) :
  objects w = {[ ("assets", "fallback.png") := fallbackObject ]} ->
  outcomes w = [] ->
  env !! "OUTPUT_BUCKET_NAME" = Some "out" ->
  fst (@process exampleRuntime env (exampleRequest big) w) = Normal big
  /\ objects (snd (@process exampleRuntime env (exampleRequest big) w)) = objects w
  /\ outcomes (snd (@process exampleRuntime env (exampleRequest big) w)) = [].
Proof.
  intros Hobjects Houtcomes Hbucket.
  unfold process, lookupCache, doesProcessedImageExist, headObject, getOutputBucket, envOr.
  unfold mbind, M_bind, bind, tryCatch, external, ret, throw. simpl.
  rewrite Houtcomes, Hobjects, Hbucket. simpl.
  auto.
Qed.

Lemma process_passthrough_stored (env : Env) (big : Buffer) (stored : S3.Object) (w : World) :
  objects w = {[ ("assets", "fallback.png") := stored ]} ->
  outcomes w = [] ->
  env !! "OUTPUT_BUCKET_NAME" = Some "out" ->
  fst (@process exampleRuntime env (exampleRequest big) w) = Normal big
  /\ objects (snd (@process exampleRuntime env (exampleRequest big) w)) = objects w
  /\ outcomes (snd (@process exampleRuntime env (exampleRequest big) w)) = [].
Proof.
  intros Hobjects Houtcomes Hbucket.
  unfold process, lookupCache, doesProcessedImageExist, headObject, getOutputBucket, envOr.
  unfold mbind, M_bind, bind, tryCatch, external, ret, throw. simpl.
  rewrite Houtcomes, Hobjects, Hbucket. simpl.
  auto.
Qed.

Section DirectProxy.
Context `{Runtime} `{Collaborators}.
Variable env : Env.

(** Where handleRequest goes once the encoded result is found too long:
    into its [catch] block, at the world process left. *)
Lemma handleRequest_oversized_run (event : ImageHandlerEvent) (w w1 w2 : World)
    (info : ImageRequestInfo) (processed : Buffer) :
  envIs env "ENABLE_S3_OBJECT_LAMBDA" "Yes" = false ->
  setup event w = (Normal info, w1) ->
  process env info w1 = (Normal processed, w2) ->
  Z.of_nat (String.length (toBase64 processed)) > LAMBDA_PAYLOAD_LIMIT ->
  handleRequest env event w =
    if fallbackConfigured env then
      match handleDefaultFallbackImage env event (isAlbOf event) TooLargeImageException w2 with
      | (Normal fallback, w3) => (Normal fallback, w3)
      | (Throw _, w3) => (Normal (errorResult env (isAlbOf event) TooLargeImageException), w3)
      end
    else (Normal (errorResult env (isAlbOf event) TooLargeImageException), w2).
Proof.
  intros Hmode Hsetup Hprocess Hlong.
  assert (Htest : (Z.of_nat (String.length (toBase64 processed)) >? LAMBDA_PAYLOAD_LIMIT) = true)
    by (apply Z.gtb_lt; lia).
  unfold handleRequest, handleRequestBody. fold (isAlbOf event).
  unfold mbind, M_bind, bind, tryCatch.
  rewrite Hsetup, Hprocess, Hmode. cbn [negb]. rewrite Htest.
  unfold throw at 1. destruct (fallbackConfigured env); [|reflexivity].
  destruct (handleDefaultFallbackImage env event (isAlbOf event) TooLargeImageException w2)
    as [[fallback|e] w3]; reflexivity.
Qed.

(** The [throw] inside the [try] of handleRequest. *)
Lemma handleRequestBody_oversized (event : ImageHandlerEvent) (isAlb : bool)
    (w w1 w2 : World) (info : ImageRequestInfo) (processed : Buffer) :
  envIs env "ENABLE_S3_OBJECT_LAMBDA" "Yes" = false ->
  setup event w = (Normal info, w1) ->
  process env info w1 = (Normal processed, w2) ->
  Z.of_nat (String.length (toBase64 processed)) > LAMBDA_PAYLOAD_LIMIT ->
  handleRequestBody env event isAlb w = (Throw TooLargeImageException, w2).
Proof.
  intros Hmode Hsetup Hprocess Hlong.
  assert (Htest : (Z.of_nat (String.length (toBase64 processed)) >? LAMBDA_PAYLOAD_LIMIT) = true)
    by (apply Z.gtb_lt; lia).
  unfold handleRequestBody, mbind, M_bind, bind.
  rewrite Hsetup, Hprocess, Hmode. cbn [negb]. now rewrite Htest.
Qed.

Lemma handleDefaultFallbackImage_result (event : ImageHandlerEvent) (isAlb : bool)
    (error : JsError) (w w3 : World) (fallback : Result.ImageHandlerExecutionResult) :
  envIs env "ENABLE_S3_OBJECT_LAMBDA" "Yes" = false ->
  handleDefaultFallbackImage env event isAlb error w = (Normal fallback, w3) ->
  Result.statusCode fallback
    = match status error with
      | Some s => statusValue s
      | None => statusValue INTERNAL_SERVER_ERROR
      end
  /\ Result.isBase64Encoded fallback = true
  /\ exists image,
       objects w !! (default "" (env !! "DEFAULT_FALLBACK_IMAGE_BUCKET"),
                     default "" (env !! "DEFAULT_FALLBACK_IMAGE_KEY")) = Some image
       /\ Result.body fallback = BodyString (toBase64 (S3.Body image)).
Proof.
  intros Hmode. unfold handleDefaultFallbackImage, getObject.
  unfold mbind, M_bind, bind, external, ret, throw. rewrite Hmode.
  simpl. destruct (outcomes w) as [|[e|] rest]; simpl;
    try (intros Hrun; discriminate Hrun);
    (destruct (objects w !! _) as [image|] eqn:Eo; simpl;
     [|intros Hrun; discriminate Hrun]);
    intros Hrun; injection Hrun as <- <-; simpl; eauto.
Qed.

End DirectProxy.

(** C6, as amended. In direct-proxy mode, when the base64 text of the
    processed result is longer than 6 * 1024 * 1024, the [try] block of
    handleRequest raises TooLargeImageException and handleRequest answers
    from its [catch] block. Unless a default fallback image is configured and
    fetched, the response is the TooLargeImageException error response: its
    status, not base64-encoded, the serialized error as body, whatever the
    processed result was. When the fallback image is configured and its fetch
    succeeds, the response is the stored fallback image, base64-encoded,
    under the status of TooLargeImageException; the size of that image is
    not checked. *)
Theorem handleRequest_oversized_direct_proxy `{Runtime} `{Collaborators}
    (env : Env) (event : ImageHandlerEvent) (w w1 w2 : World)
    (info : ImageRequestInfo) (processed : Buffer) :
  envIs env "ENABLE_S3_OBJECT_LAMBDA" "Yes" = false ->
  setup event w = (Normal info, w1) ->
  process env info w1 = (Normal processed, w2) ->
  Z.of_nat (String.length (toBase64 processed)) > LAMBDA_PAYLOAD_LIMIT ->
  let tooLarge := errorResult env (isAlbOf event) TooLargeImageException in
  handleRequestBody env event (isAlbOf event) w = (Throw TooLargeImageException, w2)
  /\ (Result.statusCode tooLarge = statusValue REQUEST_TOO_LONG
      /\ Result.isBase64Encoded tooLarge = false
      /\ Result.body tooLarge = BodyString (JSON_stringify (errorToJs TooLargeImageException)))
  /\ (fallbackConfigured env = false ->
      handleRequest env event w = (Normal tooLarge, w2))
  /\ (forall w3 e,
        handleDefaultFallbackImage env event (isAlbOf event) TooLargeImageException w2
          = (Throw e, w3) ->
        exists w', handleRequest env event w = (Normal tooLarge, w'))
  /\ (fallbackConfigured env = true ->
      forall w3 fallback,
        handleDefaultFallbackImage env event (isAlbOf event) TooLargeImageException w2
          = (Normal fallback, w3) ->
        handleRequest env event w = (Normal fallback, w3)
        /\ Result.statusCode fallback = statusValue REQUEST_TOO_LONG
        /\ Result.isBase64Encoded fallback = true
        /\ exists image,
             objects w2 !! (default "" (env !! "DEFAULT_FALLBACK_IMAGE_BUCKET"),
                            default "" (env !! "DEFAULT_FALLBACK_IMAGE_KEY")) = Some image
             /\ Result.body fallback = BodyString (toBase64 (S3.Body image))).
Proof.
  intros Hmode Hsetup Hprocess Hlong tooLarge.
  pose proof (handleRequest_oversized_run env event w w1 w2 info processed
                Hmode Hsetup Hprocess Hlong) as Hrun.
  split; [now apply (handleRequestBody_oversized env event _ w w1 w2 info processed)|].
  split; [repeat split|]. split; [|split].
  - intros Hoff. now rewrite Hrun, Hoff.
  - intros w3 e Hfail. rewrite Hrun, Hfail.
    destruct (fallbackConfigured env); eauto.
  - intros Hon w3 fallback Hfetched. rewrite Hrun, Hon, Hfetched.
    split; [reflexivity|].
    apply (handleDefaultFallbackImage_result env event _ _ _ _ _ Hmode Hfetched).
Qed.

Lemma handleRequest_oversized_direct_proxy_witness :
  fst (@handleRequest exampleRuntime (exampleCollaborators (exampleRequest oversized))
         directEnv proxyEvent fallbackWorld)
  = Normal (@errorResult exampleRuntime directEnv false TooLargeImageException).
Proof.
  pose proof (process_passthrough directEnv oversized fallbackWorld eq_refl eq_refl eq_refl)
    as (Hp & _ & _).
  destruct (@handleRequest_oversized_direct_proxy exampleRuntime
              (exampleCollaborators (exampleRequest oversized)) directEnv proxyEvent
              fallbackWorld fallbackWorld
              (snd (@process exampleRuntime directEnv (exampleRequest oversized) fallbackWorld))
              (exampleRequest oversized) oversized) as (_ & _ & Hoff & _).
  - reflexivity.
  - reflexivity.
  - rewrite <- Hp. apply surjective_pairing.
  - exact oversized_exceeds_limit.
  - rewrite Hoff by reflexivity. reflexivity.
Defined.

Lemma fallback_fetched (stored : S3.Object) (w : World) :
  objects w = {[ ("assets", "fallback.png") := stored ]} ->
  outcomes w = [] ->
  exists response w3,
    @handleDefaultFallbackImage (exampleCollaborators (exampleRequest oversized))
      fallbackEnv proxyEvent false TooLargeImageException w = (Normal response, w3)
    /\ Result.statusCode response = 413
    /\ Result.isBase64Encoded response = true
    /\ Result.body response = BodyString (toBase64 (S3.Body stored)).
Proof.
  intros Hobjects Houtcomes. unfold handleDefaultFallbackImage, getObject.
  unfold mbind, M_bind, bind, external, ret, throw. simpl.
  rewrite Houtcomes, Hobjects. simpl.
  eexists _, _. split; [reflexivity|]. repeat split.
Qed.

Lemma fallback_answer (stored : S3.Object) (w : World) :
  objects w = {[ ("assets", "fallback.png") := stored ]} ->
  outcomes w = [] ->
  exists response,
    fst (@handleRequest exampleRuntime (exampleCollaborators (exampleRequest oversized))
           fallbackEnv proxyEvent w) = Normal response
    /\ Result.isBase64Encoded response = true
    /\ Result.body response = BodyString (toBase64 (S3.Body stored)).
Proof.
  intros Hobjects Houtcomes.
  pose proof (process_passthrough_stored fallbackEnv oversized stored w Hobjects Houtcomes
                eq_refl) as (Hp & Hobjects' & Houtcomes').
  rewrite Hobjects in Hobjects'.
  destruct (fallback_fetched stored _ Hobjects' Houtcomes')
    as (response & w3 & Hfetch & _ & Hb64 & Hbody).
  exists response.
  rewrite (@handleRequest_oversized_run exampleRuntime
             (exampleCollaborators (exampleRequest oversized)) fallbackEnv proxyEvent
             w w (snd (@process exampleRuntime fallbackEnv (exampleRequest oversized) w))
             (exampleRequest oversized) oversized);
    [ | reflexivity | reflexivity | rewrite <- Hp; apply surjective_pairing
      | exact oversized_exceeds_limit ].
  change (fallbackConfigured fallbackEnv) with true. cbv iota.
  change (isAlbOf proxyEvent) with false. rewrite Hfetch.
  split; [reflexivity|]. split; [exact Hb64|exact Hbody].
Qed.

(** C6 as stated fails: a default fallback image is configured, the
    processed result is 4718593 bytes long (6291460 characters of base64,
    over the ceiling of 6291456), and handleRequest answers with the fallback
    image, base64-encoded, instead of the TooLargeImageException error
    response. The fallback image is not measured: when the image stored as
    fallback is itself 4718593 bytes long, the body of the response is its
    base64 text, over the ceiling. *)
Lemma handleRequest_oversized_counterexample :
  envIs fallbackEnv "ENABLE_S3_OBJECT_LAMBDA" "Yes" = false
  /\ fst (@process exampleRuntime fallbackEnv (exampleRequest oversized) fallbackWorld)
     = Normal oversized
  /\ Z.of_nat (String.length (toBase64 oversized)) > LAMBDA_PAYLOAD_LIMIT
  /\ (exists response,
        fst (@handleRequest exampleRuntime (exampleCollaborators (exampleRequest oversized))
               fallbackEnv proxyEvent fallbackWorld) = Normal response
        /\ Result.isBase64Encoded response = true
        /\ Result.body response = BodyString (toBase64 (bufferFrom "fallback image"))
        /\ Result.isBase64Encoded
             (@errorResult exampleRuntime fallbackEnv false TooLargeImageException) = false)
  /\ (exists response,
        fst (@process exampleRuntime fallbackEnv (exampleRequest oversized)
               oversizedFallbackWorld) = Normal oversized
        /\ fst (@handleRequest exampleRuntime (exampleCollaborators (exampleRequest oversized))
                  fallbackEnv proxyEvent oversizedFallbackWorld) = Normal response
        /\ Result.body response = BodyString (toBase64 oversized)).
Proof.
  pose proof (process_passthrough_stored fallbackEnv oversized fallbackObject fallbackWorld
                eq_refl eq_refl eq_refl) as (Hp & _ & _).
  pose proof (process_passthrough_stored fallbackEnv oversized oversizedFallbackObject
                oversizedFallbackWorld eq_refl eq_refl eq_refl) as (Hp' & _ & _).
  split; [reflexivity|]. split; [exact Hp|]. split; [exact oversized_exceeds_limit|]. split.
  - destruct (fallback_answer fallbackObject fallbackWorld eq_refl eq_refl)
      as (response & Hrun & Hb64 & Hbody).
    exists response. split; [exact Hrun|]. split; [exact Hb64|]. split; [exact Hbody|].
    reflexivity.
  - destruct (fallback_answer oversizedFallbackObject oversizedFallbackWorld eq_refl eq_refl)
      as (response & Hrun & _ & Hbody).
    exists response. split; [exact Hp'|]. split; [exact Hrun|exact Hbody].
Qed.

(** ** The write-back call *)

Lemma writeBack_run `{Runtime} (ctx : Event.GetObjectContext)
    (finalResponse : Result.ImageHandlerExecutionResult) (responseHeaders : JsObject)
    (w : World) (e1 : JsError) (rest : list (option JsError)) :
  outcomes w = Some e1 :: rest ->
  let first := CallWriteGetObjectResponse
                 (buildWriteResponseParams ctx finalResponse responseHeaders) in
  let second := CallWriteGetObjectResponse
                  (buildErrorResponseParams ctx S3ObjectLambdaWriteError) in
  writeBack ctx finalResponse responseHeaders w =
    match rest with
    | Some e2 :: rest' => (Throw e2, setOutcomes rest' (record second (record first w)))
    | None :: rest' => (Normal Result.Void, setOutcomes rest' (record second (record first w)))
    | [] => (Normal Result.Void, record second (setOutcomes [] (record first w)))
    end.
Proof.
  intros Hout first second. unfold writeBack, writeGetObjectResponse.
  unfold mbind, M_bind, bind, tryCatch, external, ret. simpl.
  rewrite Hout. simpl. destruct rest as [|[e2|] rest']; reflexivity.
Qed.

(** C9, as amended. In write-back mode, when the first
    writeGetObjectResponse call fails, a second call is made whose body is the
    serialized S3ObjectLambdaWriteError. If the second call goes through the
    handler resolves; if it fails too, its error is not caught: the handler
    rejects with it. *)
Theorem handler_write_back_second_attempt `{Runtime} `{Collaborators}
    (env : Env) (userRequest : Event.UserRequest)
    (ctx : Event.GetObjectContext) (normalized : ImageHandlerEvent)
    (finalResponse : Result.ImageHandlerExecutionResult) (w w1 : World)
    (e1 : JsError) (rest : list (option JsError)) :
  let event := Event.ObjectLambda userRequest (Some ctx) in
  let first := buildWriteResponseParams ctx finalResponse (buildResponseHeaders finalResponse) in
  let second := buildErrorResponseParams ctx S3ObjectLambdaWriteError in
  envIs env "ENABLE_S3_OBJECT_LAMBDA" "Yes" = true ->
  normalizeEvent env event = Normal normalized ->
  raceTimeout env (handleRequest env normalized) w = (Normal finalResponse, w1) ->
  outcomes w1 = Some e1 :: rest ->
  calls (snd (handler env event w))
    = calls w1 ++ [CallWriteGetObjectResponse first; CallWriteGetObjectResponse second]
  /\ wBody second = BodyString (JSON_stringify (errorToJs S3ObjectLambdaWriteError))
  /\ code S3ObjectLambdaWriteError = Some "S3ObjectLambdaWriteError"
  /\ (accepted 0 (setOutcomes rest w1) = true -> fst (handler env event w) = Normal Result.Void)
  /\ (forall e2 rest', rest = Some e2 :: rest' -> fst (handler env event w) = Throw e2).
Proof.
  intros event first second Hmode Hnorm Hrace Hout.
  assert (Hrun : handler env event w
                 = writeBack ctx finalResponse (buildResponseHeaders finalResponse) w1).
  { unfold handler, event. fold event. unfold mbind, M_bind, bind, lift.
    rewrite Hnorm, Hmode. cbn [negb]. now rewrite Hrace. }
  rewrite Hrun, (writeBack_run ctx finalResponse _ w1 e1 rest Hout).
  split; [|split; [reflexivity|split; [reflexivity|split]]].
  - destruct rest as [|[e2|] rest']; simpl; now rewrite <- app_assoc.
  - unfold accepted. destruct rest as [|[e2|] rest']; simpl; [reflexivity|discriminate|reflexivity].
  - intros e2 rest' ->. reflexivity.
Qed.

Lemma handler_write_back_second_attempt_witness :
  let event := Event.ObjectLambda getObjectRequest (Some getObjectContext) in
  let w := writeBackWorld [Some writeRejected] in
  fst (@handler exampleRuntime (exampleCollaborators hitRequest) objectLambdaEnv event w)
  = Normal Result.Void
  /\ length (calls (snd (@handler exampleRuntime (exampleCollaborators hitRequest)
                           objectLambdaEnv event w))) = 3%nat.
Proof.
  intros event w.
  destruct (@handler_write_back_second_attempt exampleRuntime (exampleCollaborators hitRequest)
              objectLambdaEnv getObjectRequest getObjectContext normalizedGetObject
              tomResponse w (responseReadyWorld [Some writeRejected]) writeRejected [])
    as (Hcalls & _ & _ & Hok & _).
  - reflexivity.
  - vm_compute. reflexivity.
  - vm_compute. reflexivity.
  - reflexivity.
  - split.
    + apply Hok. reflexivity.
    + unfold event. rewrite Hcalls. reflexivity.
Defined.

(** C9 as stated fails: both write-back calls are rejected, and the handler
    rejects with the error of the second one. *)
Lemma handler_write_back_counterexample :
  let event := Event.ObjectLambda getObjectRequest (Some getObjectContext) in
  let w := writeBackWorld [Some writeRejected; Some writeRejectedAgain] in
  fst (@handler exampleRuntime (exampleCollaborators hitRequest) objectLambdaEnv event w)
  = Throw writeRejectedAgain
  /\ calls (snd (@handler exampleRuntime (exampleCollaborators hitRequest) objectLambdaEnv
                   event w))
     = [ CallHeadObject "out" hitId;
         CallWriteGetObjectResponse
           (@buildWriteResponseParams exampleRuntime getObjectContext tomResponse
              (@buildResponseHeaders exampleRuntime tomResponse));
         CallWriteGetObjectResponse
           (@buildErrorResponseParams exampleRuntime getObjectContext S3ObjectLambdaWriteError) ].
Proof. vm_compute. split; reflexivity. Qed.

(** ** The batch ingestion controller *)





Section BatchFacts.
Context `{Runtime} `{Collaborators}.
Variable env : Env.
Variable OUTPUT_BUCKET : string.












End BatchFacts.




(** ** Further properties of the code *)


(** ** More on hex colours *)

Lemma hexDigitValue_range c : isHexDigit c = true -> 0 <= hexDigitValue c <= 15.
Proof.
  destruct c as [[] [] [] [] [] [] [] []]; vm_compute; intuition congruence.
Qed.

Lemma parseInt16_pair c1 c2 :
  parseInt16 (String c1 (String c2 EmptyString)) = 16 * hexDigitValue c1 + hexDigitValue c2.
Proof. unfold parseInt16. simpl. lia. Qed.

Lemma lowerChar_hex c : isHexDigit (Str.lowerChar c) = isHexDigit c.
Proof. destruct c as [[] [] [] [] [] [] [] []]; reflexivity. Qed.

Lemma lowerChar_value c :
  isHexDigit c = true -> hexDigitValue (Str.lowerChar c) = hexDigitValue c.
Proof. destruct c as [[] [] [] [] [] [] [] []]; vm_compute; congruence. Qed.

Lemma lowerChar_hash c : Ascii.eqb (Str.lowerChar c) "#" = Ascii.eqb c "#".
Proof. destruct c as [[] [] [] [] [] [] [] []]; reflexivity. Qed.

Lemma stripHash_lower s : stripHash (Str.toLowerCase s) = Str.toLowerCase (stripHash s).
Proof.
  destruct s as [|c rest]; [reflexivity|]. simpl. rewrite lowerChar_hash.
  now destruct (Ascii.eqb c "#").
Qed.

(** What convertHexToRgb computes, by the shape of the string once an
    optional [#] is set aside. *)
Lemma convertHexToRgb_shape hex :
  (exists c1 c2 c3,
      stripHash hex = String c1 (String c2 (String c3 EmptyString))
      /\ isHexDigit c1 = true /\ isHexDigit c2 = true /\ isHexDigit c3 = true
      /\ convertHexToRgb hex
         = rgb (17 * hexDigitValue c1) (17 * hexDigitValue c2) (17 * hexDigitValue c3))
  \/ (exists c1 c2 c3 c4 c5 c6,
        stripHash hex
        = String c1 (String c2 (String c3 (String c4 (String c5 (String c6 EmptyString)))))
        /\ isHexDigit c1 = true /\ isHexDigit c2 = true /\ isHexDigit c3 = true
        /\ isHexDigit c4 = true /\ isHexDigit c5 = true /\ isHexDigit c6 = true
        /\ convertHexToRgb hex
           = rgb (16 * hexDigitValue c1 + hexDigitValue c2)
                 (16 * hexDigitValue c3 + hexDigitValue c4)
                 (16 * hexDigitValue c5 + hexDigitValue c6))
  \/ convertHexToRgb hex = rgb 0 0 0.
Proof.
  unfold convertHexToRgb, expandShorthand, matchShorthand.
  destruct (stripHash hex) as [|c1 [|c2 [|c3 [|c4 [|c5 [|c6 [|c7 rest]]]]]]] eqn:Es;
    try (right; right; unfold matchFull; rewrite Es; reflexivity).
  - destruct (isHexDigit c1) eqn:H1, (isHexDigit c2) eqn:H2, (isHexDigit c3) eqn:H3; simpl;
      try (right; right; unfold matchFull; rewrite Es; reflexivity).
    left. exists c1, c2, c3. repeat (split; [assumption || reflexivity|]).
    unfold matchFull. rewrite (stripHash_hex _ _ H1), H1, H2, H3. simpl.
    rewrite !parseInt16_pair. f_equal; lia.
  - unfold matchFull. rewrite Es.
    destruct (isHexDigit c1) eqn:H1, (isHexDigit c2) eqn:H2, (isHexDigit c3) eqn:H3,
             (isHexDigit c4) eqn:H4, (isHexDigit c5) eqn:H5, (isHexDigit c6) eqn:H6;
      simpl; try (right; right; reflexivity).
    right. left. exists c1, c2, c3, c4, c5, c6.
    repeat (split; [assumption || reflexivity|]).
    now rewrite !parseInt16_pair.
Qed.

(** X1. Whatever the string, convertHexToRgb returns channels between 0 and
    255 and no alpha. *)
Theorem convertHexToRgb_channels (hex : string) :
  0 <= r (convertHexToRgb hex) <= 255
  /\ 0 <= g (convertHexToRgb hex) <= 255
  /\ 0 <= b (convertHexToRgb hex) <= 255
  /\ alpha (convertHexToRgb hex) = None.
Proof.
  destruct (convertHexToRgb_shape hex)
    as [(c1 & c2 & c3 & _ & H1 & H2 & H3 & ->)
       |[(c1 & c2 & c3 & c4 & c5 & c6 & _ & H1 & H2 & H3 & H4 & H5 & H6 & ->) | ->]];
    simpl;
    repeat match goal with
           | H : isHexDigit ?c = true |- _ => apply hexDigitValue_range in H
           end;
    repeat split; lia.
Qed.

(** X2. A colour of six hex digits, with or without [#], is read pair by
    pair: each channel is 16 times its first digit plus its second. *)
Theorem convertHexToRgb_six_digits (c1 c2 c3 c4 c5 c6 : ascii) (prefixed : bool) :
  isHexDigit c1 = true -> isHexDigit c2 = true -> isHexDigit c3 = true ->
  isHexDigit c4 = true -> isHexDigit c5 = true -> isHexDigit c6 = true ->
  convertHexToRgb
    ((if prefixed then "#" else "")
       ++ String c1 (String c2 (String c3 (String c4 (String c5 (String c6 EmptyString))))))%string
  = rgb (16 * hexDigitValue c1 + hexDigitValue c2)
        (16 * hexDigitValue c3 + hexDigitValue c4)
        (16 * hexDigitValue c5 + hexDigitValue c6).
Proof.
  intros H1 H2 H3 H4 H5 H6.
  assert (Es : stripHash
                 ((if prefixed then "#" else "")
                    ++ String c1 (String c2 (String c3 (String c4 (String c5 (String c6 EmptyString))))))%string
               = String c1 (String c2 (String c3 (String c4 (String c5 (String c6 EmptyString)))))).
  { destruct prefixed; [reflexivity|]. apply (stripHash_hex _ _ H1). }
  unfold convertHexToRgb, expandShorthand, matchShorthand, matchFull. rewrite Es.
  rewrite Es, H1, H2, H3, H4, H5, H6. simpl. now rewrite !parseInt16_pair.
Qed.

Lemma convertHexToRgb_six_digits_witness :
  convertHexToRgb "#1E90ff" = rgb 30 144 255.
Proof.
  exact (convertHexToRgb_six_digits "1" "E" "9" "0" "f" "f" true
           eq_refl eq_refl eq_refl eq_refl eq_refl eq_refl).
Defined.

(** X3. convertHexToRgb does not tell upper case from lower case, and
    putting a [#] in front of a string that has none changes nothing. *)
Theorem convertHexToRgb_case_and_hash (hex : string) :
  convertHexToRgb (Str.toLowerCase hex) = convertHexToRgb hex
  /\ (Str.startsWith "#" hex = false ->
      convertHexToRgb (String "#" hex) = convertHexToRgb hex).
Proof.
  split.
  - unfold convertHexToRgb, expandShorthand, matchShorthand. rewrite stripHash_lower.
    destruct (stripHash hex) as [|c1 [|c2 [|c3 [|c4 [|c5 [|c6 [|c7 rest]]]]]]] eqn:Es;
      cbn [Str.toLowerCase];
      try (unfold matchFull; rewrite stripHash_lower, Es; reflexivity).
    + rewrite !lowerChar_hex.
      destruct (isHexDigit c1) eqn:H1, (isHexDigit c2) eqn:H2, (isHexDigit c3) eqn:H3;
        cbn [andb];
        try (unfold matchFull; rewrite stripHash_lower, Es; reflexivity).
      unfold matchFull.
      rewrite stripHash_hex by now rewrite lowerChar_hex.
      rewrite (stripHash_hex _ _ H1), !lowerChar_hex, H1, H2, H3. cbn [andb].
      rewrite !parseInt16_pair, !lowerChar_value by assumption. reflexivity.
    + unfold matchFull. rewrite stripHash_lower, Es. cbn [Str.toLowerCase].
      rewrite !lowerChar_hex.
      destruct (isHexDigit c1) eqn:H1, (isHexDigit c2) eqn:H2, (isHexDigit c3) eqn:H3,
               (isHexDigit c4) eqn:H4, (isHexDigit c5) eqn:H5, (isHexDigit c6) eqn:H6;
        cbn [andb]; try reflexivity.
      rewrite !parseInt16_pair, !lowerChar_value by assumption. reflexivity.
  - intros Hplain.
    assert (Es : stripHash hex = hex).
    { destruct hex as [|c rest]; [reflexivity|]. unfold Str.startsWith in Hplain.
      simpl in Hplain. simpl.
      destruct (Ascii.eqb c "#") eqn:E; [|reflexivity].
      apply Ascii.eqb_eq in E. subst c. simpl in Hplain.
      destruct rest; discriminate. }
    unfold convertHexToRgb, expandShorthand, matchShorthand.
    rewrite stripHash_hash, Es.
    destruct hex as [|c1 [|c2 [|c3 [|c4 rest]]]];
      try (unfold matchFull; rewrite stripHash_hash, Es; reflexivity).
    destruct (isHexDigit c1 && isHexDigit c2 && isHexDigit c3); [reflexivity|].
    unfold matchFull. now rewrite stripHash_hash, Es.
Qed.

Lemma convertHexToRgb_case_and_hash_witness :
  convertHexToRgb "ffaa00" = convertHexToRgb "FFaa00"
  /\ convertHexToRgb "#FFaa00" = convertHexToRgb "FFaa00".
Proof.
  split.
  - exact (proj1 (convertHexToRgb_case_and_hash "FFaa00")).
  - exact (proj2 (convertHexToRgb_case_and_hash "FFaa00") eq_refl).
Defined.

(** ** More on the fingerprint *)

Lemma toInt32_range z : - 2 ^ 31 <= toInt32 z < 2 ^ 31.
Proof. unfold toInt32. pose proof (Z.mod_pos_bound (z + 2 ^ 31) (2 ^ 32)). lia. Qed.

Lemma toInt32_id z : - 2 ^ 31 <= z < 2 ^ 31 -> toInt32 z = z.
Proof. intros Hz. unfold toInt32. rewrite Z.mod_small; lia. Qed.

Lemma toInt32_shift z k : toInt32 (z + k * 2 ^ 32) = toInt32 z.
Proof.
  unfold toInt32. replace (z + k * 2 ^ 32 + 2 ^ 31) with (z + 2 ^ 31 + k * 2 ^ 32) by lia.
  now rewrite Z_mod_plus_full.
Qed.

Lemma toInt32_wraps z : exists k, toInt32 z = z + k * 2 ^ 32.
Proof.
  exists (- ((z + 2 ^ 31) / 2 ^ 32)). unfold toInt32.
  pose proof (Z.div_mod (z + 2 ^ 31) (2 ^ 32)). lia.
Qed.

Lemma hashStep_spec hash c :
  - 2 ^ 31 <= hash < 2 ^ 31 ->
  hashStep hash c = toInt32 (31 * hash + Str.charCode c).
Proof.
  intros Hh. unfold hashStep. rewrite Z.land_diag, (toInt32_id hash Hh), Z.shiftl_mul_pow2 by lia.
  destruct (toInt32_wraps (hash * 2 ^ 5)) as [k ->].
  replace (hash * 2 ^ 5 + k * 2 ^ 32 - hash + Str.charCode c)
    with (31 * hash + Str.charCode c + k * 2 ^ 32) by lia.
  apply toInt32_shift.
Qed.

Lemma hashStep_range hash c : - 2 ^ 31 <= hashStep hash c < 2 ^ 31.
Proof. unfold hashStep. rewrite Z.land_diag. apply toInt32_range. Qed.

Lemma fold_hashStep_range l : forall h,
  - 2 ^ 31 <= h < 2 ^ 31 -> - 2 ^ 31 <= fold_left hashStep l h < 2 ^ 31.
Proof.
  induction l as [|c l IH]; intros h Hh; simpl; [exact Hh|].
  apply IH, hashStep_range.
Qed.

Lemma list_ascii_of_string_app s t :
  list_ascii_of_string (s ++ t)%string = list_ascii_of_string s ++ list_ascii_of_string t.
Proof. induction s as [|c s IH]; simpl; [reflexivity|now rewrite IH]. Qed.

(** X4. The hash inside generateImageId always fits a signed 32-bit
    integer, and it is the multiply-by-31 string hash: one more character [c]
    turns hash [h] into [31 * h + code c], wrapped to 32 bits. *)
Theorem rollingHash_spec (s : string) :
  - 2 ^ 31 <= rollingHash s < 2 ^ 31
  /\ rollingHash "" = 0
  /\ forall c, rollingHash (s ++ String c EmptyString)
               = toInt32 (31 * rollingHash s + Str.charCode c).
Proof.
  assert (Hr : - 2 ^ 31 <= rollingHash s < 2 ^ 31).
  { unfold rollingHash. apply fold_hashStep_range. lia. }
  split; [exact Hr|]. split; [reflexivity|].
  intros c. unfold rollingHash in *.
  rewrite list_ascii_of_string_app, fold_left_app. simpl.
  now apply hashStep_spec.
Qed.

Lemma split_nonempty sep s : Str.split sep s <> [].
Proof.
  destruct s as [|c rest]; simpl; [discriminate|].
  destruct (Ascii.eqb c sep); [discriminate|]. destruct (Str.split sep rest); discriminate.
Qed.

(** Pieces of a split hold no separator, and only characters of the
    string that was split. *)
Lemma split_pieces sep s :
  Forall (fun piece =>
            ~ In sep (list_ascii_of_string piece)
            /\ forall c, In c (list_ascii_of_string piece) -> In c (list_ascii_of_string s))
         (Str.split sep s).
Proof.
  induction s as [|c rest IH]; simpl.
  - repeat constructor; auto.
  - destruct (Ascii.eqb_spec c sep) as [->|Hne].
    + constructor; [split; [auto|intros ? []]|].
      eapply Forall_impl; [exact IH|]. intros piece [Hn Hsub]. split; [exact Hn|].
      intros x Hx. right. now apply Hsub.
    + destruct (Str.split sep rest) as [|h t] eqn:Es; [now apply split_nonempty in Es|].
      inversion IH as [|? ? [Hn Hsub] Ht]; subst.
      constructor.
      * split; simpl; [intros [E|E]; [now apply Hne|now apply Hn]|].
        intros x [->|Hx]; [now left|right; now apply Hsub].
      * eapply Forall_impl; [exact Ht|]. intros piece [Hn' Hsub']. split; [exact Hn'|].
        intros x Hx. right. now apply Hsub'.
Qed.

(** X5. The name part of an image id is never empty and holds neither
    [/] nor [.], whatever the key. *)
Theorem baseName_flat (key : string) :
  baseName key <> ""
  /\ ~ In "/"%char (list_ascii_of_string (baseName key))
  /\ ~ In "."%char (list_ascii_of_string (baseName key)).
Proof.
  unfold baseName, Str.orElse.
  set (file := List.last (Str.split "/" key) "").
  assert (Hfile : ~ In "/"%char (list_ascii_of_string file)).
  { pose proof (split_pieces "/" key) as Hall. pose proof (split_nonempty "/" key) as Hne.
    subst file. destruct (exists_last Hne) as (l & x & E). rewrite E in *.
    rewrite last_last. apply Forall_app in Hall as [_ Hx].
    inversion Hx as [|? ? [Hn _] _]; subst. exact Hn. }
  pose proof (split_pieces "." file) as Hall.
  destruct (Str.split "." file) as [|h t] eqn:Es; [now apply split_nonempty in Es|].
  inversion Hall as [|? ? [Hdot Hsub] _]; subst. simpl.
  destruct (String.eqb_spec h "") as [->|Hh].
  - split; [discriminate|]. split; vm_compute; intuition discriminate.
  - split; [exact Hh|]. split; [|exact Hdot].
    intros Hin. apply Hfile. now apply Hsub.
Qed.

(** ** More on the direct-proxy response *)

Lemma encoded_too_long (processed : Buffer) :
  (Z.of_nat (String.length (toBase64 processed)) >? LAMBDA_PAYLOAD_LIMIT)%Z
  = negb (Z.of_nat (length processed) <=? 4718592)%Z.
Proof.
  rewrite toBase64_length. unfold LAMBDA_PAYLOAD_LIMIT.
  set (n := Z.of_nat (length processed)).
  destruct (Z.leb_spec n 4718592) as [Hle|Hgt]; simpl.
  - assert ((n + 2) / 3 < 1572865) by (apply Z.div_lt_upper_bound; lia).
    rewrite Z.gtb_ltb. apply Z.ltb_ge. lia.
  - assert (1572865 <= (n + 2) / 3) by (apply Z.div_le_lower_bound; lia).
    apply Z.gtb_lt. lia.
Qed.

(** X6. In direct-proxy mode the ceiling of 6 * 1024 * 1024 characters of
    base64 is a ceiling of 4718592 bytes on the processed image: up to that
    size the image is answered base64-encoded under status OK, above it
    TooLargeImageException is raised. *)
Theorem handleRequestBody_size_threshold `{Runtime} `{Collaborators}
    (env : Env) (event : ImageHandlerEvent) (isAlb : bool) (w w1 w2 : World)
    (info : ImageRequestInfo) (processed : Buffer) :
  envIs env "ENABLE_S3_OBJECT_LAMBDA" "Yes" = false ->
  setup event w = (Normal info, w1) ->
  process env info w1 = (Normal processed, w2) ->
  handleRequestBody env event isAlb w
  = if (Z.of_nat (length processed) <=? 4718592)%Z
    then (Normal (Result.mkResult (statusValue OK) true (successHeaders env info isAlb)
                    (BodyString (toBase64 processed))), w2)
    else (Throw TooLargeImageException, w2).
Proof.
  intros Hmode Hsetup Hprocess. unfold handleRequestBody.
  rewrite bind_run, Hsetup, bind_run, Hprocess, bind_run, Hmode. cbn [negb].
  rewrite encoded_too_long.
  now destruct (Z.of_nat (length processed) <=? 4718592)%Z.
Qed.

Lemma handleRequestBody_size_threshold_witness :
  fst (@handleRequestBody exampleRuntime (exampleCollaborators hitRequest) directEnv
         proxyEvent false emptyWorld)
  = Normal (Result.mkResult 200 true (successHeaders directEnv hitRequest false)
              (BodyString (toBase64 (bufferFrom "source bytes")))).
Proof.
  rewrite (@handleRequestBody_size_threshold exampleRuntime (exampleCollaborators hitRequest)
             directEnv proxyEvent false emptyWorld emptyWorld
             (snd (@process exampleRuntime directEnv hitRequest emptyWorld))
             hitRequest (bufferFrom "source bytes")); reflexivity.
Defined.


(** ** More on process *)




(** ** More on the responses of the entry point *)

(** X8. handleRequest never throws. Its response is the one built by the
    [try] block, or, when that block has thrown, the fallback image (only
    with the fallback configured and fetched) or the error response of the
    error that was thrown. *)
Theorem handleRequest_always_responds `{Runtime} `{Collaborators}
    (env : Env) (event : ImageHandlerEvent) (w : World) :
  exists response,
    fst (handleRequest env event w) = Normal response
    /\ (fst (handleRequestBody env event (isAlbOf event) w) = Normal response
        \/ exists error w1,
             handleRequestBody env event (isAlbOf event) w = (Throw error, w1)
             /\ (response = errorResult env (isAlbOf event) error
                 \/ (fallbackConfigured env = true
                     /\ fst (handleDefaultFallbackImage env event (isAlbOf event) error w1)
                        = Normal response))).
Proof.
  unfold handleRequest. fold (isAlbOf event). rewrite tryCatch_run.
  destruct (handleRequestBody env event (isAlbOf event) w) as [[response|error] w1].
  - exists response. split; [reflexivity|now left].
  - rewrite bind_run. destruct (fallbackConfigured env).
    + rewrite tryCatch_run, bind_run.
      destruct (handleDefaultFallbackImage env event (isAlbOf event) error w1)
        as [[fallback|e] w2] eqn:Ef.
      * exists fallback. split; [reflexivity|]. right. exists error, w1.
        split; [reflexivity|]. right. split; [reflexivity|now rewrite Ef].
      * exists (errorResult env (isAlbOf event) error). split; [reflexivity|].
        right. exists error, w1. split; [reflexivity|now left].
    + exists (errorResult env (isAlbOf event) error). split; [reflexivity|].
      right. exists error, w1. split; [reflexivity|now left].
Qed.

Lemma getProp_set_eq k v o : getProp k (Obj.set k v o) = v.
Proof.
  induction o as [|[k' v'] rest IH]; simpl; [now rewrite String.eqb_refl|].
  destruct (String.eqb k k') eqn:E; simpl; [now rewrite String.eqb_refl|].
  now rewrite E.
Qed.

Lemma getProp_set_ne k k' v o : k <> k' -> getProp k (Obj.set k' v o) = getProp k o.
Proof.
  intros Hne. induction o as [|[k0 v0] rest IH]; simpl.
  - now destruct (String.eqb_spec k k').
  - destruct (String.eqb k' k0) eqn:E; simpl.
    + apply String.eqb_eq in E. subst k0.
      now destruct (String.eqb_spec k k').
    + destruct (String.eqb k k0); [reflexivity|exact IH].
Qed.

Lemma set_values (P : JsValue -> Prop) k v o :
  P v -> Forall (fun kv => P (snd kv)) o -> Forall (fun kv => P (snd kv)) (Obj.set k v o).
Proof.
  intros Hv. induction 1 as [|[k' v'] rest Hx Hrest IH]; simpl.
  - now repeat constructor.
  - destruct (String.eqb k k'); constructor; auto.
Qed.

(** X9. The headers handed to the write-back call hold no undefined
    value, only strings. A response with a status from 400 to 499 gets
    Cache-Control max-age=10,public and one from 500 to 598 gets
    max-age=600,public, whatever the response said; status 599 is outside
    both ranges and keeps what it had. *)
Theorem buildResponseHeaders_cache_control `{Runtime}
    (response : Result.ImageHandlerExecutionResult) :
  Forall (fun kv => exists text, snd kv = JStr text) (buildResponseHeaders response)
  /\ (400 <= Result.statusCode response <= 499 ->
      getProp "Cache-Control" (buildResponseHeaders response) = JStr "max-age=10,public")
  /\ (500 <= Result.statusCode response < 599 ->
      getProp "Cache-Control" (buildResponseHeaders response) = JStr "max-age=600,public")
  /\ (Result.statusCode response < 400 \/ 599 <= Result.statusCode response ->
      buildResponseHeaders response
      = map (fun kv => (fst kv, JStr (Str2.replaceAll "%20" " " (encodeURI (snd kv)))))
          (List.filter (fun kv => match snd kv with JUndefined => false | _ => true end)
             (Result.headers response))).
Proof.
  unfold buildResponseHeaders.
  set (encoded := map _ (List.filter _ (Result.headers response))).
  assert (Hall : Forall (fun kv => exists text, snd kv = JStr text) encoded).
  { subst encoded. apply Forall_map. apply Forall_forall. intros kv _. simpl. eauto. }
  split; [|split; [|split]].
  - destruct (_ && _); destruct (_ && _);
      repeat (apply (set_values (fun v => exists text, v = JStr text)); [eauto|]); exact Hall.
  - intros [Hlo Hhi].
    replace (400 <=? Result.statusCode response)%Z with true by (symmetry; now apply Z.leb_le).
    replace (Result.statusCode response <=? 499)%Z with true by (symmetry; now apply Z.leb_le).
    replace (500 <=? Result.statusCode response)%Z with false by (symmetry; apply Z.leb_gt; lia).
    simpl. apply getProp_set_eq.
  - intros [Hlo Hhi].
    replace (500 <=? Result.statusCode response)%Z with true by (symmetry; now apply Z.leb_le).
    replace (Result.statusCode response <? 599)%Z with true by (symmetry; now apply Z.ltb_lt).
    simpl. apply getProp_set_eq.
  - intros Hout.
    replace ((400 <=? Result.statusCode response)%Z && (Result.statusCode response <=? 499)%Z)
      with false
      by (symmetry; apply andb_false_iff; rewrite Z.leb_gt, Z.leb_gt; lia).
    replace ((500 <=? Result.statusCode response)%Z && (Result.statusCode response <? 599)%Z)
      with false
      by (symmetry; apply andb_false_iff; rewrite Z.leb_gt, Z.ltb_ge; lia).
    reflexivity.
Qed.

(** ** More on the batch controller *)

(** X10. A record whose key has none of the image extensions is skipped
    without a single external call: the turn of the record leaves the world
    as it found it. *)
Theorem recordAttempt_skips_other_files `{Runtime} `{Collaborators}
    (env : Env) (OUTPUT_BUCKET : string) (record : S3EventRecord) (key : string)
    (w : World) :
  decodeURIComponent (Str2.replaceAll "+" " " (Event.objectKey record)) = Some key ->
  includesString IMAGE_FORMATS
    (Str2.substringFrom (Str2.lastIndexOf "." key) (Str.toLowerCase key)) = false ->
  recordAttempt env OUTPUT_BUCKET record w = (Normal tt, w)
  /\ recordTurn env OUTPUT_BUCKET record w = (Normal tt, w).
Proof.
  intros Hkey Hother.
  assert (Hrun : recordAttempt env OUTPUT_BUCKET record w = (Normal tt, w)).
  { unfold recordAttempt, firstBody, decodeKey. rewrite Hkey, tryCatch_run, bind_run.
    unfold ret at 1. cbv beta iota. now rewrite Hother. }
  split; [exact Hrun|]. unfold recordTurn. now rewrite tryCatch_run, Hrun.
Qed.

Lemma recordAttempt_skips_other_files_witness :
  @recordTurn exampleRuntime (exampleCollaborators hitRequest) batchEnv "thumbs"
    (Event.mkRecord "aws:s3" "uploads-bucket" "uploads/notes.txt") uploadedWorld
  = (Normal tt, uploadedWorld).
Proof.
  apply (@recordAttempt_skips_other_files exampleRuntime (exampleCollaborators hitRequest)
           batchEnv "thumbs" _ "uploads/notes.txt"); reflexivity.
Defined.

(** X11. getOutputFormat: a declared output format wins; without one a
    thumbnail becomes webp and every other variant becomes jpeg, png, webp or
    gif, so the result is never empty. *)
Theorem getOutputFormat_range (contentType : string) (transform : Batch.Transform) :
  (forall declared,
      Batch.outputFormat transform = Some declared -> declared <> "" ->
      getOutputFormat contentType transform = declared)
  /\ (Batch.outputFormat transform = None \/ Batch.outputFormat transform = Some "" ->
      In (getOutputFormat contentType transform) ["webp"; "jpeg"; "png"; "gif"]
      /\ (Batch.suffix transform = "thumb" -> getOutputFormat contentType transform = "webp")).
Proof.
  unfold getOutputFormat. split.
  - intros declared -> Hne. simpl. now destruct (String.eqb_spec declared "").
  - intros Hnone.
    assert (Hd : default "" (Batch.outputFormat transform) = "")
      by (destruct Hnone as [-> | ->]; reflexivity).
    rewrite Hd. simpl. split.
    + destruct (String.eqb (Batch.suffix transform) "thumb"); [now left|].
      destruct (_ || _); [right; now left|].
      destruct (Str.includes "png" contentType); [right; right; now left|].
      destruct (Str.includes "webp" contentType); [now left|].
      destruct (Str.includes "gif" contentType); [right; right; right; now left|].
      right; now left.
    + intros ->. reflexivity.
Qed.

(** X12. The two extension tables of the entry point agree: every
    extension of IMAGE_FORMATS has an image content type, so a record that
    passes the extension test is never given the fallback type; a string
    that starts with a dot and is none of these extensions is given
    application/octet-stream. *)
Theorem getContentTypeFromExtension_images (extension : string) :
  (includesString IMAGE_FORMATS extension = true ->
   Str.startsWith "image/" (getContentTypeFromExtension extension) = true)
  /\ (Str.startsWith "." extension = true ->
      includesString IMAGE_FORMATS extension = false ->
      getContentTypeFromExtension extension = "application/octet-stream").
Proof.
  unfold includesString, IMAGE_FORMATS, getContentTypeFromExtension. simpl.
  destruct (String.eqb extension ".jpg"); [split; [reflexivity|discriminate]|].
  destruct (String.eqb extension ".jpeg"); [split; [reflexivity|discriminate]|].
  destruct (String.eqb extension ".png"); [split; [reflexivity|discriminate]|].
  destruct (String.eqb extension ".gif"); [split; [reflexivity|discriminate]|].
  destruct (String.eqb extension ".webp"); [split; [reflexivity|discriminate]|].
  destruct (String.eqb extension ".tiff"); [split; [reflexivity|discriminate]|].
  destruct (String.eqb extension ".svg"); [split; [reflexivity|discriminate]|].
  split; [discriminate|reflexivity].
Qed.

Lemma getContentTypeFromExtension_images_witness :
  getContentTypeFromExtension ".svg" = "image/svg+xml"
  /\ getContentTypeFromExtension ".bmp" = "application/octet-stream".
Proof.
  split; [reflexivity|].
  exact (proj2 (getContentTypeFromExtension_images ".bmp") eq_refl eq_refl).
Defined.

(** ** More on the stores *)

(** X13. doesProcessedImageExist: when the call goes through the answer
    is whether the output bucket holds the key; a rejection named NotFound is
    answered false, and any other rejection is thrown on as it is. No store
    changes in any case. *)
Theorem doesProcessedImageExist_spec (env : Env) (key : string) (w : World) :
  (accepted 0 w = true ->
   fst (doesProcessedImageExist env key w)
   = Normal (match objects w !! (getOutputBucket env, key) with
             | Some _ => true
             | None => false
             end))
  /\ (forall e rest,
        outcomes w = Some e :: rest ->
        fst (doesProcessedImageExist env key w)
        = if String.eqb (name e) "NotFound" then Normal false else Throw e)
  /\ sameStores w (snd (doesProcessedImageExist env key w)).
Proof.
  split; [|split].
  - unfold accepted, doesProcessedImageExist, headObject.
    rewrite tryCatch_run, bind_run, external_run.
    destruct (outcomes w) as [|[e|] rest]; simpl; try discriminate; intros _;
      destruct (objects w !! (getOutputBucket env, key)); reflexivity.
  - intros e rest Ho. unfold doesProcessedImageExist, headObject.
    rewrite tryCatch_run, bind_run, external_run, Ho. simpl.
    now destruct (String.eqb (name e) "NotFound").
  - apply doesProcessedImageExist_readonly.
Qed.

Lemma doesProcessedImageExist_spec_witness :
  fst (doesProcessedImageExist cacheEnv hitId (hitWorld [])) = Normal true
  /\ fst (doesProcessedImageExist cacheEnv hitId (hitWorld [Some throttled])) = Throw throttled.
Proof.
  split.
  - now rewrite (proj1 (doesProcessedImageExist_spec cacheEnv hitId (hitWorld []))).
  - now rewrite (proj1 (proj2 (doesProcessedImageExist_spec cacheEnv hitId
                                 (hitWorld [Some throttled]))) throttled [] eq_refl).
Defined.

Lemma union_absorbs {A} (over base : option A) : over ∪ (over ∪ base) = over ∪ base.
Proof. destruct over, base; reflexivity. Qed.

Lemma spread_absorbs (item over : Db.ImageMetadata) :
  Db.spread (Db.spread item over) over = Db.spread item over.
Proof. unfold Db.spread. simpl. now rewrite !union_absorbs. Qed.

(** X14. What storeImageMetadata stores can be read back: when both calls
    go through and the metadata names no other image id, getImageMetadata
    returns an item under the image id that holds every attribute of the
    metadata, with createdAt set to the time of the call unless the metadata
    brings its own. *)
Theorem storeImageMetadata_read_back `{Runtime} (env : Env) (imageId : string)
    (metadata : Db.ImageMetadata) (w : World) :
  accepted 0 w = true -> accepted 1 w = true ->
  Db.imageId metadata = None \/ Db.imageId metadata = Some imageId ->
  fst (storeImageMetadata env imageId metadata w) = Normal tt
  /\ exists item,
       fst (getImageMetadata env imageId (snd (storeImageMetadata env imageId metadata w)))
       = Normal (Some item)
       /\ Db.imageId item = Some imageId
       /\ Db.createdAt item = Some (default (toISOString (now w)) (Db.createdAt metadata))
       /\ Db.spread item metadata = item.
Proof.
  intros Ha0 Ha1 Hid. unfold accepted in Ha0, Ha1.
  assert (Hkey : default "" (Db.imageId metadata ∪ Some imageId) = imageId)
    by (destruct Hid as [-> | ->]; reflexivity).
  unfold storeImageMetadata, getImageMetadata, mbind, M_bind, bind, getNow, external.
  destruct w as [objs metas batches outs trace clock digits timer].
  destruct outs as [|[e0|] [|[e1|] rest]]; simpl in Ha0, Ha1; try discriminate;
    cbn -[lookup insert default union Db.spread]; cbn [Db.spread Db.imageId];
    rewrite Hkey, store_lookup_insert_eq;
    (split; [reflexivity|]); eexists; (split; [reflexivity|]);
    (split; [cbn; destruct Hid as [-> | ->]; reflexivity|]);
    (split; [cbn; now destruct (Db.createdAt metadata)|]);
    apply spread_absorbs.
Qed.

Lemma storeImageMetadata_read_back_witness :
  exists item,
    fst (getImageMetadata cacheEnv hitId
           (snd (@storeImageMetadata exampleRuntime cacheEnv hitId (countedItem 5) emptyWorld)))
    = Normal (Some item)
    /\ Db.accessCount item = Some 5.
Proof.
  destruct (@storeImageMetadata_read_back exampleRuntime cacheEnv hitId (countedItem 5)
              emptyWorld eq_refl eq_refl) as (_ & item & Hget & _ & _ & Hkeeps).
  - right. reflexivity.
  - exists item. split; [exact Hget|]. rewrite <- Hkeeps. unfold Db.spread. cbn.
    now destruct (Db.accessCount item).
Defined.
